(** * Timecard: the request gates and handlers of the App Engine application

    A shallow embedding of [package timecard] (and of the earlier
    [package hello] gate in [app.go]) together with models of the platform
    services the handlers call: [net/http]'s response writer, [encoding/json],
    [html/template], [strconv], [appengine/user] and [appengine/datastore]. *)

From Stdlib Require Import ZArith Ascii String List Sorted Permutation Lia.
From stdpp Require Import base decidable option list strings gmap sorting.

Local Open Scope string_scope.
Local Open Scope Z_scope.

(** ** Text helpers *)

(** The double quote character, as a one-character string. *)
Definition dq : string := String "034"%char EmptyString.

Definition str1 (a : ascii) : string := String a EmptyString.

Fixpoint join (sep : string) (l : list string) : string :=
  match l with
  | [] => ""
  | [x] => x
  | x :: l' => x +:+ sep +:+ join sep l'
  end.

Fixpoint concat_map (f : ascii → string) (s : string) : string :=
  match s with
  | EmptyString => ""
  | String a s' => f a +:+ concat_map f s'
  end.

Definition hex_digit (n : N) : string :=
  str1 (ascii_of_N (if (n <? 10)%N then 48 + n else 87 + n)%N).

(** Two lower-case hexadecimal digits of a byte. *)
Definition hex2 (a : ascii) : string :=
  let n := N_of_ascii a in hex_digit (n / 16)%N +:+ hex_digit (n mod 16)%N.

(** ** [strconv] *)

Module strconv.

(** [strconv.Quote] on single bytes: the named escapes, [\x..] for the other
    control bytes; bytes from 0x80 on (UTF-8 sequences) are kept. *)
Definition quote_byte (a : ascii) : string :=
  let n := N_of_ascii a in
  if (n =? 34)%N then "\" +:+ dq
  else if (n =? 92)%N then "\\"
  else if (n =? 7)%N then "\a"
  else if (n =? 8)%N then "\b"
  else if (n =? 12)%N then "\f"
  else if (n =? 10)%N then "\n"
  else if (n =? 13)%N then "\r"
  else if (n =? 9)%N then "\t"
  else if (n =? 11)%N then "\v"
  else if ((n <? 32) || (n =? 127))%N then "\x" +:+ hex2 a
  else str1 a.

Definition Quote (s : string) : string := dq +:+ concat_map quote_byte s +:+ dq.

(** The message of the [*NumError] that [ParseBool] returns. *)
Definition syntaxError (fn str : string) : string :=
  "strconv." +:+ fn +:+ ": parsing " +:+ Quote str +:+ ": invalid syntax".

(** [ParseBool]: the twelve accepted spellings, an error for the rest. *)
Definition ParseBool (str : string) : bool * option string :=
  if bool_decide (str ∈ ["1"; "t"; "T"; "TRUE"; "true"; "True"]) then (true, None)
  else if bool_decide (str ∈ ["0"; "f"; "F"; "FALSE"; "false"; "False"]) then (false, None)
  else (false, Some (syntaxError "ParseBool" str)).

End strconv.

(** ** [time] *)

Module time.

(** An instant, in seconds since the Unix epoch, read in UTC. *)
Definition Time : Type := Z.

(** The zero [Time], January 1 of year 1. *)
Definition zero : Time := -62135596800.

(** Civil date of a day number counted from 1970-01-01 (proleptic
    Gregorian calendar). *)
Definition civil_from_days (days : Z) : Z * Z * Z :=
  let z := days + 719468 in
  let era := z / 146097 in
  let doe := z - era * 146097 in
  let yoe := (doe - doe / 1460 + doe / 36524 - doe / 146096) / 365 in
  let doy := doe - (365 * yoe + yoe / 4 - yoe / 100) in
  let mp := (5 * doy + 2) / 153 in
  let d := doy - (153 * mp + 2) / 5 + 1 in
  let m := if mp <? 10 then mp + 3 else mp - 9 in
  let y := yoe + era * 400 + (if m <=? 2 then 1 else 0) in
  (y, m, d).

Definition digit (n : Z) : string := str1 (ascii_of_N (48 + Z.to_N (n mod 10))).

Definition pad2 (n : Z) : string := digit (n / 10) +:+ digit n.

Definition pad4 (n : Z) : string := pad2 (n / 100) +:+ pad2 n.

(** [t.Format("2006-01-02 15:04")] for years 0 to 9999. *)
Definition Format_2006_01_02_15_04 (t : Time) : string :=
  let '(y, m, d) := civil_from_days (t / 86400) in
  let s := t mod 86400 in
  pad4 y +:+ "-" +:+ pad2 m +:+ "-" +:+ pad2 d +:+ " "
    +:+ pad2 (s / 3600) +:+ ":" +:+ pad2 (s mod 3600 / 60).

End time.

(** ** Values and errors of the Go runtime *)

(** The line feed, as a one-character string. *)
Definition nl : string := String "010"%char EmptyString.

(** A non-nil [error], identified with the text its [Error()] method returns. *)
Definition error : Type := string.

(** A call that returns [(value, error)]: [Err] when the error is non-nil. *)
Inductive result (A : Type) : Type :=
  | Ok (a : A)
  | Err (e : error).
Arguments Ok {A} a.
Arguments Err {A} e.

(** The values the handlers store in an [interface{}]. A [[]interface{}] is
    [None] while it is the nil slice; a map is given by the entries of its
    literal, whose keys are distinct. *)
#[warnings="-register-all"]
Inductive any : Type :=
  | VNil
  | VBool (b : bool)
  | VString (s : string)
  | VSlice (s : option (list any))
  | VMap (m : list (string * any)).

(** The built-in [append] on a slice of [interface{}]. *)
Definition append (s : option (list any)) (x : any) : option (list any) :=
  Some (default [] s ++ [x])%list.

(** [fmt]'s [%v] of an [error] interface value. *)
Definition fmt_v (e : option error) : string := default "<nil>" e.

(** ** [encoding/json] *)

Module json.

(** One byte of a JSON string, with the encoder's HTML-safe escaping. *)
Definition escape_byte (a : ascii) : string :=
  let n := N_of_ascii a in
  if (n =? 34)%N then "\" +:+ dq
  else if (n =? 92)%N then "\\"
  else if (n =? 10)%N then "\n"
  else if (n =? 13)%N then "\r"
  else if (n =? 9)%N then "\t"
  else if ((n <? 32) || (n =? 60) || (n =? 62) || (n =? 38))%N then "\u00" +:+ hex2 a
  else str1 a.

Definition encode_string (s : string) : string :=
  dq +:+ concat_map escape_byte s +:+ dq.

Definition field_le (a b : string * string) : Prop := String.leb a.1 b.1.

Definition encode_field (kv : string * string) : string :=
  encode_string kv.1 +:+ ":" +:+ kv.2.

(** [Marshal]: a nil interface and a nil slice are both [null]; the
    entries of a map come sorted by key. *)
Fixpoint encode (v : any) : string :=
  match v with
  | VNil => "null"
  | VBool b => if b then "true" else "false"
  | VString s => encode_string s
  | VSlice None => "null"
  | VSlice (Some l) => "[" +:+ join "," (map encode l) +:+ "]"
  | VMap m =>
      let fields :=
        (fix encode_fields (m : list (string * any)) : list (string * string) :=
           match m with
           | [] => []
           | (k, x) :: m' => (k, encode x) :: encode_fields m'
           end) m in
      "{" +:+ join "," (map encode_field (merge_sort field_le fields)) +:+ "}"
  end.

(** What [Encoder.Encode] writes: the encoding and a line feed. *)
Definition Encode (v : any) : string := encode v +:+ nl.

End json.

(** ** [html/template] *)

Module template.

(** The escaper the template applies to a value printed in element text. *)
Definition escape_byte (a : ascii) : string :=
  let n := N_of_ascii a in
  if (n =? 0)%N then "�"
  else if (n =? 34)%N then "&#34;"
  else if (n =? 38)%N then "&amp;"
  else if (n =? 39)%N then "&#39;"
  else if (n =? 43)%N then "&#43;"
  else if (n =? 60)%N then "&lt;"
  else if (n =? 62)%N then "&gt;"
  else str1 a.

Definition escape (s : string) : string := concat_map escape_byte s.

End template.

(** ** [net/http] *)

Module http.

Definition StatusOK : Z := 200.
Definition StatusFound : Z := 302.
Definition StatusBadRequest : Z := 400.
Definition StatusInternalServerError : Z := 500.

(** A request: its method, [r.URL.String()], [r.URL.Path] and its parsed
    form, in which the first value of a key is the one [FormValue]
    returns. *)
Record Request := {
  Method : string;
  URL : string;
  Path : string;
  Form : list (string * string)
}.

Definition FormValue (r : Request) (key : string) : string :=
  match list_find (λ kv : string * string, kv.1 = key) (Form r) with
  | Some (_, kv) => kv.2
  | None => ""
  end.

(** A response writer: the header map the handler edits, and what has gone
    to the client. [status] is [None] until the header is written, which
    freezes a copy of the header map in [sent]. *)
Record ResponseWriter := {
  header : gmap string (list string);
  status : option Z;
  sent : gmap string (list string);
  body : string
}.

Definition fresh : ResponseWriter :=
  {| header := ∅; status := None; sent := ∅; body := "" |}.

Definition Header_Set (k v : string) (w : ResponseWriter) : ResponseWriter :=
  {| header := <[k := [v]]> (header w); status := status w;
     sent := sent w; body := body w |}.

Definition Header_Add (k v : string) (w : ResponseWriter) : ResponseWriter :=
  {| header := <[k := (default [] (header w !! k) ++ [v])%list]> (header w);
     status := status w; sent := sent w; body := body w |}.

(** Only the first [WriteHeader] of a response has an effect. *)
Definition WriteHeader (code : Z) (w : ResponseWriter) : ResponseWriter :=
  match status w with
  | Some _ => w
  | None => {| header := header w; status := Some code;
               sent := header w; body := body w |}
  end.

(** [Write] sends the header with status 200 first if none was sent. *)
Definition Write (data : string) (w : ResponseWriter) : ResponseWriter :=
  let w' := WriteHeader StatusOK w in
  {| header := header w'; status := status w'; sent := sent w';
     body := body w' +:+ data |}.

(** [http.Error]: the content type is set to plain text, the header is
    written with the given status, and the message is printed on a line. *)
Definition Error (msg : string) (code : Z) (w : ResponseWriter) : ResponseWriter :=
  Write (msg +:+ nl)
    (WriteHeader code (Header_Set "Content-Type" "text/plain; charset=utf-8" w)).

(** The status the client receives once the handler has returned. *)
Definition final_status (w : ResponseWriter) : Z := default StatusOK (status w).

End http.

(** ** [appengine/user] *)

Module user.

Record User := {
  Email : string;
  AuthDomain : string;
  FederatedIdentity : string
}.

Definition has_suffix (s suffix : string) : bool :=
  let n := (String.length s - String.length suffix)%nat in
  bool_decide (String.length suffix ≤ String.length s)%nat
    && bool_decide (substring n (String.length suffix) s = suffix).

(** The [String] method of a user, the text a template prints for it. *)
Definition String_ (u : User) : string :=
  if negb (bool_decide (AuthDomain u = ""))
     && has_suffix (Email u) ("@" +:+ AuthDomain u)
  then substring 0 (String.length (Email u) - String.length ("@" +:+ AuthDomain u))
         (Email u)
  else if negb (bool_decide (FederatedIdentity u = "")) then FederatedIdentity u
  else Email u.

End user.

(** ** [appengine/datastore] *)

(** The first value bound to a key in an association list. *)
Definition assoc {A} (key : string) (l : list (string * A)) : option A :=
  match list_find (λ kv : string * A, kv.1 = key) l with
  | Some (_, kv) => Some kv.2
  | None => None
  end.

Notation "x |> f" := (f x) (at level 68, left associativity, only parsing).

Module datastore.

(** A key is its own kind and identifier and the path of its ancestors,
    root first. A nil parent is [None]. *)
Record PathElem := { eKind : string; eName : string; eID : Z }.

Record Key := {
  Kind : string;
  StringID : string;
  IntID : Z;
  Ancestors : list PathElem
}.

#[global] Instance PathElem_eq_dec : EqDecision PathElem.
Proof. solve_decision. Defined.

#[global] Instance Key_eq_dec : EqDecision Key.
Proof. solve_decision. Defined.

Definition path (k : Key) : list PathElem :=
  (Ancestors k ++ [{| eKind := Kind k; eName := StringID k; eID := IntID k |}])%list.

Definition NewKey (kind stringID : string) (intID : Z) (parent : option Key) : Key :=
  {| Kind := kind; StringID := stringID; IntID := intID;
     Ancestors := from_option path [] parent |}.

Definition NewIncompleteKey (kind : string) (parent : option Key) : Key :=
  NewKey kind "" 0 parent.

Definition Incomplete (k : Key) : bool :=
  bool_decide (StringID k = "") && bool_decide (IntID k = 0).

(** The property values the two record kinds use. *)
Inductive Value :=
  | PTime (t : time.Time)
  | PBool (b : bool)
  | PString (s : string).

Record Entity := { ekey : Key; props : list (string * Value) }.

(** How a struct is flattened into properties and read back; loading
    fails on a property the struct has no field of that type for. *)
Class PropertyLoadSaver (A : Type) := {
  Save : A → list (string * Value);
  Load : list (string * Value) → option A
}.

(** Loading into a struct without slice fields: every property sets its
    field, and a property that occurs twice is refused. *)
Definition load_struct {A} (set : A → string * Value → option A) (zero : A)
    (ps : list (string * Value)) : option A :=
  if bool_decide (NoDup ps.*1)
  then foldl (λ acc f, a ← acc; set a f) (Some zero) ps
  else None.

(** *** The order of query results *)

Definition lex (c1 c2 : comparison) : comparison :=
  match c1 with Eq => c2 | _ => c1 end.

Fixpoint list_compare {A} (cmp : A → A → comparison) (l1 l2 : list A) : comparison :=
  match l1, l2 with
  | [], [] => Eq
  | [], _ :: _ => Lt
  | _ :: _, [] => Gt
  | x :: l1', y :: l2' => lex (cmp x y) (list_compare cmp l1' l2')
  end.

Definition option_compare {A} (cmp : A → A → comparison) (o1 o2 : option A) : comparison :=
  match o1, o2 with
  | None, None => Eq
  | None, Some _ => Lt
  | Some _, None => Gt
  | Some x, Some y => cmp x y
  end.

(** Values of different types are ordered by type: timestamps, then
    booleans, then strings. *)
Definition rank (v : Value) : Z :=
  match v with PTime _ => 0 | PBool _ => 1 | PString _ => 2 end.

Definition Value_compare (v1 v2 : Value) : comparison :=
  match v1, v2 with
  | PTime a, PTime b => a ?= b
  | PBool a, PBool b => Bool.compare a b
  | PString a, PString b => String.compare a b
  | _, _ => rank v1 ?= rank v2
  end.

(** Path elements: by kind, then numeric identifiers before names. *)
Definition PathElem_compare (e1 e2 : PathElem) : comparison :=
  lex (String.compare (eKind e1) (eKind e2))
    (lex (String.compare (eName e1) (eName e2)) (eID e1 ?= eID e2)).

Definition Key_compare (k1 k2 : Key) : comparison :=
  list_compare PathElem_compare (path k1) (path k2).

Definition sort_values (order : list string) (e : Entity) : list (option Value) :=
  (λ name, assoc name (props e)) <$> order.

(** Results come by the sort properties, ascending, then by key. *)
Definition Entity_compare (order : list string) (e1 e2 : Entity) : comparison :=
  lex (list_compare (option_compare Value_compare)
         (sort_values order e1) (sort_values order e2))
      (Key_compare (ekey e1) (ekey e2)).

Definition Entity_le (order : list string) (e1 e2 : Entity) : Prop :=
  Entity_compare order e1 e2 ≠ Gt.

(** *** Queries *)

Record Query := {
  qKind : string;
  qAncestor : option Key;
  qOrder : list string;
  qLimit : option nat
}.

Definition NewQuery (kind : string) : Query :=
  {| qKind := kind; qAncestor := None; qOrder := []; qLimit := None |}.

Definition Ancestor (ancestor : Key) (q : Query) : Query :=
  {| qKind := qKind q; qAncestor := Some ancestor;
     qOrder := qOrder q; qLimit := qLimit q |}.

Definition Order (fieldName : string) (q : Query) : Query :=
  {| qKind := qKind q; qAncestor := qAncestor q;
     qOrder := (qOrder q ++ [fieldName])%list; qLimit := qLimit q |}.

Definition Limit (limit : nat) (q : Query) : Query :=
  {| qKind := qKind q; qAncestor := qAncestor q;
     qOrder := qOrder q; qLimit := Some limit |}.

(** An entity is a result when it is of the kind, the ancestor is on its
    key path (the ancestor itself included), and it has every sort
    property. *)
Definition matches (q : Query) (e : Entity) : Prop :=
  Kind (ekey e) = qKind q
  ∧ from_option (λ a, path a `prefix_of` path (ekey e)) True (qAncestor q)
  ∧ Forall (λ name, is_Some (assoc name (props e))) (qOrder q).

#[global] Instance matches_dec q e : Decision (matches q e).
Proof.
  unfold matches. destruct (qAncestor q); simpl; apply _.
Defined.

(** The store: its entities, and the error with which the service
    answers reads or writes while it is failing. *)
Record Store := {
  entities : list Entity;
  read_fault : option error;
  write_fault : option error
}.

Definition run (q : Query) (s : Store) : list Entity :=
  let sorted := merge_sort (Entity_le (qOrder q)) (filter (matches q) (entities s)) in
  match qLimit q with
  | Some n => take n sorted
  | None => sorted
  end.

Definition ErrFieldMismatch : error := "datastore: cannot load field".

(** [q.GetAll(c, &dst)] into an empty or nil [dst]. *)
Definition GetAll {A} `{PropertyLoadSaver A} (q : Query) (s : Store) : result (list A) :=
  match read_fault s with
  | Some e => Err e
  | None =>
      match mapM Load (props <$> run q s) with
      | Some l => Ok l
      | None => Err ErrFieldMismatch
      end
  end.

(** The identifier given to an incomplete key: one no stored key has. *)
Definition fresh_id (s : Store) : Z :=
  1 + foldr Z.max 0 ((λ e, IntID (ekey e)) <$> entities s).

Definition complete (k : Key) (s : Store) : Key :=
  if Incomplete k
  then {| Kind := Kind k; StringID := StringID k; IntID := fresh_id s;
          Ancestors := Ancestors k |}
  else k.

(** [datastore.Put(c, key, src)]: the entity replaces the one stored
    under the completed key, if any. *)
Definition Put {A} `{PropertyLoadSaver A} (key : Key) (src : A) (s : Store)
  : result (Key * Store) :=
  match write_fault s with
  | Some e => Err e
  | None =>
      let k := complete key s in
      Ok (k, {| entities :=
                  (filter (λ e, ekey e ≠ k) (entities s)
                     ++ [{| ekey := k; props := Save src |}])%list;
                read_fault := read_fault s;
                write_fault := write_fault s |})
  end.

End datastore.

(** ** The state of one request *)

Inductive Level := LDebug | LError.

(** What a handler reaches through its context [c] and its writer [w]: the
    signed-in user, the login URL service, the clock, the store, the
    request log and the response. *)
Record World := {
  currentUser : option user.User;
  loginURL : string → result string;
  clock : time.Time;
  store : datastore.Store;
  log : list (Level * string);
  w : http.ResponseWriter
}.

(** A computation on the request state; [None] is a run-time panic. *)
Definition M (A : Type) : Type := World → option (A * World).

#[global] Instance M_ret : MRet M := λ A a σ, Some (a, σ).

#[global] Instance M_bind : MBind M := λ A B f m σ,
  match m σ with
  | Some (a, σ') => f a σ'
  | None => None
  end.

Definition get {A} (f : World → A) : M A := λ σ, Some (f σ, σ).

Definition panic {A} : M A := λ _, None.

(** Reading a field through a pointer that may be nil. *)
Definition deref {A} (p : option A) : M A :=
  match p with
  | Some a => mret a
  | None => panic
  end.

Definition set_w (f : http.ResponseWriter → http.ResponseWriter) : M unit := λ σ,
  Some ((), {| currentUser := currentUser σ; loginURL := loginURL σ;
               clock := clock σ; store := store σ; log := log σ; w := f (w σ) |}).

Definition set_store (s : datastore.Store) : M unit := λ σ,
  Some ((), {| currentUser := currentUser σ; loginURL := loginURL σ;
               clock := clock σ; store := s; log := log σ; w := w σ |}).

Definition logf (l : Level) (text : string) : M unit := λ σ,
  Some ((), {| currentUser := currentUser σ; loginURL := loginURL σ;
               clock := clock σ; store := store σ;
               log := (log σ ++ [(l, text)])%list; w := w σ |}).

Definition user_Current : M (option user.User) := get currentUser.

Definition user_LoginURL (dest : string) : M (result string) :=
  get (λ σ, loginURL σ dest).

Definition time_Now : M time.Time := get clock.

Definition c_Errorf (text : string) : M unit := logf LError text.

Definition c_Debugf (text : string) : M unit := logf LDebug text.

Definition http_Error (msg : string) (code : Z) : M unit := set_w (http.Error msg code).

Definition datastore_GetAll {A} `{datastore.PropertyLoadSaver A} (q : datastore.Query)
  : M (result (list A)) :=
  get (λ σ, datastore.GetAll q (store σ)).

Definition datastore_Put {A} `{datastore.PropertyLoadSaver A} (key : datastore.Key) (src : A)
  : M (result datastore.Key) :=
  s ← get store;
  match datastore.Put key src s with
  | Ok (k, s') => set_store s';; mret (Ok k)
  | Err e => mret (Err e)
  end.

(** ** The program *)

Record User := { Email : string; Name : string; Enabled : bool }.


Record Punch := { Puncher : string; Type_ : string; Time : time.Time }.

Definition punchKey : datastore.Key :=
  datastore.NewKey "Punch" "default_punch" 0 None.

Definition User_load_field (u : User) (f : string * datastore.Value) : option User :=
  match f.2 with
  | datastore.PString s =>
      if bool_decide (f.1 = "Email")
      then Some {| Email := s; Name := Name u; Enabled := Enabled u |}
      else if bool_decide (f.1 = "Name")
      then Some {| Email := Email u; Name := s; Enabled := Enabled u |}
      else None
  | datastore.PBool b =>
      if bool_decide (f.1 = "Enabled")
      then Some {| Email := Email u; Name := Name u; Enabled := b |}
      else None
  | datastore.PTime _ => None
  end.

#[global] Instance User_codec : datastore.PropertyLoadSaver User := {|
  datastore.Save u :=
    [("Email", datastore.PString (Email u)); ("Name", datastore.PString (Name u));
     ("Enabled", datastore.PBool (Enabled u))];
  datastore.Load :=
    datastore.load_struct User_load_field {| Email := ""; Name := ""; Enabled := false |}
|}.

Definition Punch_load_field (p : Punch) (f : string * datastore.Value) : option Punch :=
  match f.2 with
  | datastore.PString s =>
      if bool_decide (f.1 = "Puncher")
      then Some {| Puncher := s; Type_ := Type_ p; Time := Time p |}
      else if bool_decide (f.1 = "Type")
      then Some {| Puncher := Puncher p; Type_ := s; Time := Time p |}
      else None
  | datastore.PTime t =>
      if bool_decide (f.1 = "Time")
      then Some {| Puncher := Puncher p; Type_ := Type_ p; Time := t |}
      else None
  | datastore.PBool _ => None
  end.

#[global] Instance Punch_codec : datastore.PropertyLoadSaver Punch := {|
  datastore.Save p :=
    [("Puncher", datastore.PString (Puncher p)); ("Type", datastore.PString (Type_ p));
     ("Time", datastore.PTime (Time p))];
  datastore.Load :=
    datastore.load_struct Punch_load_field
      {| Puncher := ""; Type_ := ""; Time := time.zero |}
|}.

Record appError := { Error : option error; Message : string; Code : Z }.

(** A handler behind the HTML gate; [None] is the nil [*appError]. *)
Definition appHandler : Type := http.Request → M (option appError).

(** A handler behind the JSON gate. *)
Definition apiHandler : Type := http.Request → M (any * option appError).

Definition redirect (url : string) : M unit :=
  set_w (http.Header_Set "Location" url);;
  set_w (http.WriteHeader http.StatusFound).

Definition handleAppError (e : appError) : M unit :=
  c_Errorf (fmt_v (Error e));;
  http_Error (Message e) (Code e).

Definition appHandler_ServeHTTP (fn : appHandler) (r : http.Request) : M unit :=
  u ← user_Current;
  match u with
  | None =>
      res ← user_LoginURL (http.URL r);
      match res with
      | Err err =>
          c_Errorf err;;
          http_Error err http.StatusInternalServerError
      | Ok url => redirect url
      end
  | Some _ =>
      e ← fn r;
      match e with
      | Some e => handleAppError e
      | None => mret ()
      end
  end.

Definition writeJsonResponse (jsonData : any) : M (option error) :=
  set_w (http.Header_Add "Content-Type" "application/json");;
  set_w (http.Write (json.Encode jsonData));;
  mret None.

Definition apiHandler_ServeHTTP (fn : apiHandler) (r : http.Request) : M unit :=
  u ← user_Current;
  match u with
  | None =>
      let err : error := "login needed" in
      c_Errorf err;;
      http_Error err http.StatusInternalServerError
  | Some _ =>
      '(jsonData, appErr) ← fn r;
      match appErr with
      | Some appErr => handleAppError appErr
      | None => mret ()
      end;;
      err ← writeJsonResponse jsonData;
      match err with
      | Some err =>
          c_Errorf err;;
          http_Error err http.StatusInternalServerError
      | None => mret ()
      end
  end.

Definition formatDateTime (t : time.Time) : string :=
  time.Format_2006_01_02_15_04 t.

(** The data handed to the root template. *)
Record rootData := { dUser : option user.User; dPunches : list Punch }.

Definition lines (l : list string) : string :=
  foldr (λ x acc, x +:+ nl +:+ acc) "" l.

Definition attr (name value : string) : string :=
  name +:+ "=" +:+ dq +:+ value +:+ dq.

(** The text of [rootTemplate] up to the user, from there to the range,
    the body of the range, and the rest. *)
Definition rootTemplate_head : string :=
  lines [""; "<html>"; "  <head>"; "    <title>Timecard</title>"; "  </head>"; "  <body>"]
    +:+ "    <div>Hello, ".

Definition rootTemplate_list : string :=
  lines ["!</div>"; "    <ul>"] +:+ "    ".

Definition rootTemplate_item (p : Punch) : string :=
  lines [""] +:+ "      <li>" +:+ template.escape (Type_ p) +:+ " "
    +:+ template.escape (formatDateTime (Time p)) +:+ lines ["</li>"] +:+ "    ".

Definition rootTemplate_tail : string :=
  lines [""; "    </ul>";
         "    <form " +:+ attr "action" "/my/arrivals" +:+ " " +:+ attr "method" "post" +:+ ">";
         "      <input " +:+ attr "type" "submit" +:+ " " +:+ attr "value" "Arrive" +:+ ">";
         "    </form>";
         "    <form " +:+ attr "action" "/my/leaves" +:+ " " +:+ attr "method" "post" +:+ ">";
         "      <input " +:+ attr "type" "submit" +:+ " " +:+ attr "value" "Leave" +:+ ">";
         "    </form>"; "  </body>"; "</html>"].

(** A nil user prints as the escaped text of a nil value. *)
Definition render_user (u : option user.User) : string :=
  match u with
  | Some u => template.escape (user.String_ u)
  | None => template.escape "<nil>"
  end.

(** The range yields one piece of text for each punch. *)
Definition rootTemplate_render (data : rootData) : string :=
  rootTemplate_head +:+ render_user (dUser data) +:+ rootTemplate_list
    +:+ String.concat "" (rootTemplate_item <$> dPunches data)
    +:+ rootTemplate_tail.

(** [rootTemplate.Execute(w, data)]; writing to the response does not fail. *)
Definition rootTemplate_Execute (data : rootData) : M (option error) :=
  set_w (http.Write (rootTemplate_render data));;
  mret None.

Definition rootHandler (r : http.Request) : M (option appError) :=
  u ← user_Current;
  let q := datastore.NewQuery "Punch" |> datastore.Ancestor punchKey
             |> datastore.Order "Time" |> datastore.Limit 10 in
  res ← datastore_GetAll q;
  match res with
  | Err err =>
      mret (Some {| Error := Some err;
                    Message := "Failed to fetch punches data from the datastore";
                    Code := http.StatusInternalServerError |})
  | Ok punches =>
      let data := {| dUser := u; dPunches := punches |} in
      err ← rootTemplate_Execute data;
      match err with
      | Some err =>
          mret (Some {| Error := Some err;
                        Message := "Failed to execute the root template";
                        Code := http.StatusInternalServerError |})
      | None => mret None
      end
  end.

Definition createPunch (punchType : string) : M (option appError) :=
  u ← user_Current;
  email ← deref (user.Email <$> u);
  now ← time_Now;
  let p := {| Puncher := email; Type_ := punchType; Time := now |} in
  let key := datastore.NewIncompleteKey "Punch" (Some punchKey) in
  res ← datastore_Put key p;
  match res with
  | Err err =>
      mret (Some {| Error := Some err;
                    Message := "Failed to put a punch data to the datastore";
                    Code := http.StatusInternalServerError |})
  | Ok _ => mret None
  end.

Definition myArrivalsHandler (r : http.Request) : M (option appError) :=
  if bool_decide (http.Method r = "POST") then
    err ← createPunch "arrival";
    match err with
    | Some err => mret (Some err)
    | None => redirect "/";; mret None
    end
  else mret None.

Definition myLeavesHandler (r : http.Request) : M (option appError) :=
  if bool_decide (http.Method r = "POST") then
    err ← createPunch "leave";
    match err with
    | Some err => mret (Some err)
    | None => redirect "/";; mret None
    end
  else mret None.

Definition getFormBoolValue (r : http.Request) (name : string) (defaultValue : bool)
  : bool * option appError :=
  let boolValue := defaultValue in
  let strValue := http.FormValue r name in
  if bool_decide (strValue ≠ "") then
    let '(boolValue, err) := strconv.ParseBool strValue in
    match err with
    | Some err =>
        (false,
         Some {| Error := Some err;
                 Message := "Failed to parse the " +:+ dq +:+ name +:+ dq
                              +:+ " parameter as a boolean value";
                 Code := http.StatusBadRequest |})
    | None => (boolValue, None)
    end
  else (boolValue, None).

(** The flat object a user is shown as. *)
Definition jsonUser (email name : string) (enabled : bool) : any :=
  VMap [("email", VString email); ("name", VString name); ("enabled", VBool enabled)].

Definition apiAdminUsersHandler (r : http.Request) : M (any * option appError) :=
  if bool_decide (http.Method r = "GET") then
    let q := datastore.NewQuery "User" |> datastore.Ancestor punchKey
               |> datastore.Order "Name" in
    res ← datastore_GetAll q;
    match res with
    | Err err =>
        mret (VNil, Some {| Error := Some err;
                            Message := "Failed to fetch users data from the datastore";
                            Code := http.StatusInternalServerError |})
    | Ok users =>
        let jsonUsers :=
          foldl (λ jsonUsers user,
                   append jsonUsers (jsonUser (Email user) (Name user) (Enabled user)))
            None users in
        mret (VMap [("users", VSlice jsonUsers)], None)
    end
  else if bool_decide (http.Method r = "POST") then
    let '(enabled, appErr) := getFormBoolValue r "enabled" true in
    match appErr with
    | Some appErr => mret (VNil, Some appErr)
    | None =>
        c_Debugf ("formvalues. email=" +:+ http.FormValue r "email"
                    +:+ ", name=" +:+ http.FormValue r "name");;
        let u := {| Email := http.FormValue r "email";
                    Name := http.FormValue r "name";
                    Enabled := enabled |} in
        let key := datastore.NewIncompleteKey "User" (Some punchKey) in
        res ← datastore_Put key u;
        match res with
        | Err err =>
            mret (VNil, Some {| Error := Some err;
                                Message := "Failed to put a user data to the datastore";
                                Code := http.StatusInternalServerError |})
        | Ok _ =>
            mret (VMap [("user", jsonUser (http.FormValue r "email") (Name u) (Enabled u))],
                  None)
        end
    end
  else
    let err : error := "Unsupported http method" in
    mret (VNil, Some {| Error := Some err; Message := err;
                        Code := http.StatusBadRequest |}).

(** The routes [init] registers: the three exact paths, and the root
    pattern, which takes every other path. *)
Definition ServeMux (r : http.Request) : M unit :=
  if bool_decide (http.Path r = "/my/arrivals") then
    appHandler_ServeHTTP myArrivalsHandler r
  else if bool_decide (http.Path r = "/my/leaves") then
    appHandler_ServeHTTP myLeavesHandler r
  else if bool_decide (http.Path r = "/api/admin/users") then
    apiHandler_ServeHTTP apiAdminUsersHandler r
  else appHandler_ServeHTTP rootHandler r.

(** ** The gate of [package hello] ([app.go]) *)

Module hello.

(** The earlier gate: a failing login URL is not logged, and the error of
    the handler is handled in place. The types are those above. *)
Definition appHandler_ServeHTTP (fn : appHandler) (r : http.Request) : M unit :=
  u ← user_Current;
  match u with
  | None =>
      res ← user_LoginURL (http.URL r);
      match res with
      | Err err => http_Error err http.StatusInternalServerError
      | Ok url => redirect url
      end
  | Some _ =>
      e ← fn r;
      match e with
      | Some e =>
          c_Errorf (fmt_v (Error e));;
          http_Error (Message e) (Code e)
      | None => mret ()
      end
  end.

End hello.

(** ** Names for the statements below *)

(** The query [rootHandler] builds. *)
Definition rootQuery : datastore.Query :=
  datastore.NewQuery "Punch" |> datastore.Ancestor punchKey
    |> datastore.Order "Time" |> datastore.Limit 10.

(** The query the GET branch of [apiAdminUsersHandler] builds. *)
Definition usersQuery : datastore.Query :=
  datastore.NewQuery "User" |> datastore.Ancestor punchKey |> datastore.Order "Name".

(** The entity a [Put] under an incomplete key of the kind and the fixed
    parent adds to a store. *)
Definition inserted {A} `{datastore.PropertyLoadSaver A} (kind : string) (src : A)
    (s : datastore.Store) : datastore.Entity :=
  {| datastore.ekey :=
       {| datastore.Kind := kind; datastore.StringID := "";
          datastore.IntID := datastore.fresh_id s;
          datastore.Ancestors := datastore.path punchKey |};
     datastore.props := datastore.Save src |}.

(** Strings in ascending order of their bytes. *)
Definition name_le (a b : string) : Prop := String.compare a b ≠ Gt.

(** The two punch handlers differ in the type they stamp only. *)
Definition punchHandler (punchType : string) : appHandler := λ r,
  if bool_decide (http.Method r = "POST") then
    err ← createPunch punchType;
    match err with
    | Some err => mret (Some err)
    | None => redirect "/";; mret None
    end
  else mret None.

(** The paths that create punches, with the type each stamps. *)
Definition punch_route (path punchType : string) : Prop :=
  (path = "/my/arrivals" ∧ punchType = "arrival")
  ∨ (path = "/my/leaves" ∧ punchType = "leave").

(** A store that has gained one entity at its end and is otherwise the
    same. *)
Definition grown (s s' : datastore.Store) : Prop :=
  ∃ e, s' = {| datastore.entities := (datastore.entities s ++ [e])%list;
               datastore.read_fault := datastore.read_fault s;
               datastore.write_fault := datastore.write_fault s |}.

(** The same, telling the kind of the entity gained. *)
Definition grown_by (kind : string) (s s' : datastore.Store) : Prop :=
  ∃ e, datastore.Kind (datastore.ekey e) = kind
       ∧ s' = {| datastore.entities := (datastore.entities s ++ [e])%list;
                 datastore.read_fault := datastore.read_fault s;
                 datastore.write_fault := datastore.write_fault s |}.

#[global] Instance Level_eq_dec : EqDecision Level.
Proof. solve_decision. Defined.


(** An entity whose Time property is a timestamp before [t]. *)
Definition older_than (t : time.Time) (e : datastore.Entity) : Prop :=
  match assoc "Time" (datastore.props e) with
  | Some (datastore.PTime t') => t' < t
  | _ => False
  end.

#[global] Instance older_than_dec t e : Decision (older_than t e).
Proof.
  unfold older_than. destruct (assoc "Time" (datastore.props e)) as [[t'| |]|]; apply _.
Defined.

(** A coarser view of a sort value: its type, and the instant when it is a
    timestamp. The order of the values refines the order of these pairs. *)
Definition time_class (o : option datastore.Value) : Z * Z :=
  match o with
  | None => (0, 0)
  | Some (datastore.PTime t) => (1, t)
  | Some (datastore.PBool _) => (2, 0)
  | Some (datastore.PString _) => (3, 0)
  end.

Definition class_le (e1 e2 : datastore.Entity) : Prop :=
  let a := time_class (assoc "Time" (datastore.props e1)) in
  let b := time_class (assoc "Time" (datastore.props e2)) in
  a.1 < b.1 ∨ (a.1 = b.1 ∧ a.2 ≤ b.2).

(** The spellings [strconv.ParseBool] reads as true, and as false. *)
Definition true_spellings : list string := ["1"; "t"; "T"; "TRUE"; "true"; "True"].
Definition false_spellings : list string := ["0"; "f"; "F"; "FALSE"; "false"; "False"].

(** Concrete requests, for the examples. *)
Module Examples.

Definition alice : user.User :=
  {| user.Email := "alice@example.com"; user.AuthDomain := "gmail.com";
     user.FederatedIdentity := "" |}.

Definition empty_store : datastore.Store :=
  {| datastore.entities := []; datastore.read_fault := None;
     datastore.write_fault := None |}.

Definition login_page (dest : string) : result string :=
  Ok ("/_ah/login?continue=" +:+ dest).

(** A request arriving at a given store, signed in or not. *)
Definition world (u : option user.User) (s : datastore.Store) : World :=
  {| currentUser := u; loginURL := login_page; clock := 1709210096;
     store := s; log := []; w := http.fresh |}.

Definition request (method path : string) (form : list (string * string))
  : http.Request :=
  {| http.Method := method; http.URL := path; http.Path := path; http.Form := form |}.

Definition punch_entity (id : Z) (t : time.Time) : datastore.Entity :=
  {| datastore.ekey :=
       {| datastore.Kind := "Punch"; datastore.StringID := ""; datastore.IntID := id;
          datastore.Ancestors := datastore.path punchKey |};
     datastore.props :=
       datastore.Save {| Puncher := "alice@example.com"; Type_ := "arrival"; Time := t |} |}.

Definition user_entity (id : Z) (name : string) : datastore.Entity :=
  {| datastore.ekey :=
       {| datastore.Kind := "User"; datastore.StringID := ""; datastore.IntID := id;
          datastore.Ancestors := datastore.path punchKey |};
     datastore.props :=
       datastore.Save {| Email := name +:+ "@example.com"; Name := name;
                         Enabled := true |} |}.

Definition store_of (es : list datastore.Entity) : datastore.Store :=
  {| datastore.entities := es; datastore.read_fault := None;
     datastore.write_fault := None |}.

(** Eleven punches, one a minute, stored latest first. *)
Definition eleven_punches : list datastore.Entity :=
  (λ i, punch_entity i (60 * i)) <$> [11; 10; 9; 8; 7; 6; 5; 4; 3; 2; 1].

(** A store whose service refuses reads, or writes. *)
Definition failing_reads (err : error) : datastore.Store :=
  {| datastore.entities := []; datastore.read_fault := Some err;
     datastore.write_fault := None |}.

Definition failing_writes (err : error) : datastore.Store :=
  {| datastore.entities := []; datastore.read_fault := None;
     datastore.write_fault := Some err |}.

End Examples.

(** * Properties *)

(** ** The models on concrete inputs *)

Example ParseBool_accepts : strconv.ParseBool "T" = (true, None)
                            ∧ strconv.ParseBool "False" = (false, None).
Proof. by split. Qed.

Example ParseBool_refuses :
  strconv.ParseBool "yes"
  = (false, Some ("strconv.ParseBool: parsing " +:+ dq +:+ "yes" +:+ dq
                    +:+ ": invalid syntax")).
Proof. reflexivity. Qed.

Example formatDateTime_leap_day : formatDateTime 1709210096 = "2024-02-29 12:34".
Proof. reflexivity. Qed.

Example formatDateTime_epoch : formatDateTime 0 = "1970-01-01 00:00".
Proof. reflexivity. Qed.

Example encode_sorts_keys :
  json.encode (jsonUser "a@b" "Al" true)
  = "{" +:+ dq +:+ "email" +:+ dq +:+ ":" +:+ dq +:+ "a@b" +:+ dq
      +:+ "," +:+ dq +:+ "enabled" +:+ dq +:+ ":true"
      +:+ "," +:+ dq +:+ "name" +:+ dq +:+ ":" +:+ dq +:+ "Al" +:+ dq +:+ "}".
Proof. reflexivity. Qed.

Example encode_slices :
  json.encode (VSlice None) = "null" ∧ json.encode (VSlice (Some [])) = "[]".
Proof. by split. Qed.

Example second_WriteHeader_ignored :
  http.status (http.WriteHeader 200 (http.WriteHeader 400 http.fresh)) = Some 400.
Proof. reflexivity. Qed.

Example user_String_trims_domain :
  user.String_ {| user.Email := "alice@example.com"; user.AuthDomain := "example.com";
                  user.FederatedIdentity := "" |} = "alice".
Proof. reflexivity. Qed.

(** Two stored users come back by name, whatever their identifiers. *)
Example users_listed_by_name :
  ∃ σ', ServeMux (Examples.request "GET" "/api/admin/users" [])
          (Examples.world (Some Examples.alice)
             (Examples.store_of [Examples.user_entity 1 "zoe"; Examples.user_entity 2 "adam"]))
        = Some ((), σ')
    ∧ http.status (w σ') = Some 200
    ∧ http.body (w σ')
      = json.Encode (VMap [("users",
                            VSlice (Some [jsonUser "adam@example.com" "adam" true;
                                          jsonUser "zoe@example.com" "zoe" true]))]).
Proof. eexists. split; [vm_compute; reflexivity|]. by split. Qed.

(** A punch made by a POST is on the page fetched next. *)
Example arrival_then_page :
  ∃ σ1 σ2,
    ServeMux (Examples.request "POST" "/my/arrivals" [])
      (Examples.world (Some Examples.alice) Examples.empty_store) = Some ((), σ1)
    ∧ ServeMux (Examples.request "GET" "/" [])
        (Examples.world (Some Examples.alice) (store σ1)) = Some ((), σ2)
    ∧ http.body (w σ2)
      = rootTemplate_render
          {| dUser := Some Examples.alice;
             dPunches := [{| Puncher := "alice@example.com"; Type_ := "arrival";
                             Time := 1709210096 |}] |}
    ∧ rootTemplate_item {| Puncher := "alice@example.com"; Type_ := "arrival";
                           Time := 1709210096 |}
      = nl +:+ "      <li>arrival 2024-02-29 12:34</li>" +:+ nl +:+ "    ".
Proof.
  eexists. eexists. split; [vm_compute; reflexivity|].
  split; [vm_compute; reflexivity|]. by split.
Qed.

Lemma append_assoc (s1 s2 s3 : string) : (s1 +:+ s2) +:+ s3 = s1 +:+ s2 +:+ s3.
Proof.
  induction s1 as [|a s1 IH]; [done|].
  change (String a ((s1 +:+ s2) +:+ s3) = String a (s1 +:+ s2 +:+ s3)). by f_equal.
Qed.

(** ** The order of query results *)

Section QueryOrder.

Import datastore.

Lemma lex_opp c1 c2 : lex (CompOpp c1) (CompOpp c2) = CompOpp (lex c1 c2).
Proof. by destruct c1. Qed.

Lemma list_compare_antisym {A} (cmp : A → A → comparison) :
  (∀ x y, cmp y x = CompOpp (cmp x y)) →
  ∀ l1 l2, list_compare cmp l2 l1 = CompOpp (list_compare cmp l1 l2).
Proof.
  intros Hcmp l1. induction l1 as [|x l1 IH]; intros [|y l2]; simpl; try done.
  by rewrite Hcmp, IH, lex_opp.
Qed.

Lemma Value_compare_antisym v1 v2 :
  Value_compare v2 v1 = CompOpp (Value_compare v1 v2).
Proof.
  destruct v1 as [a|a|a], v2 as [b|b|b]; simpl; try done.
  - apply Z.compare_antisym.
  - by destruct a, b.
  - apply (String.compare_antisym b a).
Qed.

Lemma option_compare_antisym {A} (cmp : A → A → comparison) :
  (∀ x y, cmp y x = CompOpp (cmp x y)) →
  ∀ o1 o2, option_compare cmp o2 o1 = CompOpp (option_compare cmp o1 o2).
Proof. intros Hcmp [x|] [y|]; simpl; auto. Qed.

Lemma PathElem_compare_antisym e1 e2 :
  PathElem_compare e2 e1 = CompOpp (PathElem_compare e1 e2).
Proof.
  unfold PathElem_compare.
  by rewrite (String.compare_antisym (eKind e2)), (String.compare_antisym (eName e2)),
    (Z.compare_antisym (eID e1)), !lex_opp.
Qed.

Lemma Entity_compare_antisym order e1 e2 :
  Entity_compare order e2 e1 = CompOpp (Entity_compare order e1 e2).
Proof.
  unfold Entity_compare, Key_compare.
  rewrite (list_compare_antisym _ (option_compare_antisym _ Value_compare_antisym)
             (sort_values order e1)).
  by rewrite (list_compare_antisym _ PathElem_compare_antisym (path (ekey e1))), lex_opp.
Qed.

#[global] Instance Entity_le_total order : Total (Entity_le order).
Proof.
  intros e1 e2. unfold Entity_le. rewrite (Entity_compare_antisym order e1 e2).
  destruct (Entity_compare order e1 e2); simpl; auto.
Qed.

(** Two entities in result order are in the order of the values of the
    sort property. *)
Lemma Entity_le_first name e1 e2 v1 v2 :
  assoc name (props e1) = Some v1 → assoc name (props e2) = Some v2 →
  Entity_le [name] e1 e2 → Value_compare v1 v2 ≠ Gt.
Proof.
  unfold Entity_le, Entity_compare, sort_values. simpl. intros -> ->. simpl.
  destruct (Value_compare v1 v2); simpl; done.
Qed.

Lemma Sorted_take {A} (R : relation A) n l : Sorted R l → Sorted R (take n l).
Proof.
  intros Hl. revert n. induction Hl as [|x l Hl IH Hx]; intros [|n]; simpl; auto.
  constructor; [apply IH|]. destruct Hx; destruct n; simpl; auto.
Qed.

Lemma Sorted_Forall2 {A B} (R : relation A) (R' : relation B) (P : A → B → Prop) l k :
  Forall2 P l k →
  (∀ x y x' y', x ∈ l → y ∈ l → P x x' → P y y' → R x y → R' x' y') →
  Sorted R l → Sorted R' k.
Proof.
  intros Hlk. induction Hlk as [|x x' l k Hx Hlk IH]; intros HR Hl.
  - constructor.
  - apply Sorted_inv in Hl as [Hl Hhd]. constructor.
    + apply IH; [|done]. intros a b a' b' Ha Hb. apply HR; by right.
    + destruct Hlk as [|y y' l k Hy Hlk]; constructor.
      apply HdRel_inv in Hhd. eapply (HR x y); eauto; set_solver.
Qed.

(** What a query returns: the matching entities, in result order, cut at
    the limit. *)
Lemma run_spec q s :
  ∃ all, all ≡ₚ filter (matches q) (entities s)
         ∧ Sorted (Entity_le (qOrder q)) all
         ∧ run q s = from_option (λ n, take n all) all (qLimit q).
Proof.
  exists (merge_sort (Entity_le (qOrder q)) (filter (matches q) (entities s))).
  split; [apply merge_sort_Permutation|]. split; [apply (Sorted_merge_sort _)|].
  unfold run. by destruct (qLimit q).
Qed.

Lemma run_Sorted q s : Sorted (Entity_le (qOrder q)) (run q s).
Proof.
  destruct (run_spec q s) as (all & _ & Hs & ->).
  destruct (qLimit q); simpl; auto using Sorted_take.
Qed.

Lemma run_elem q s e : e ∈ run q s → e ∈ entities s ∧ matches q e.
Proof.
  destruct (run_spec q s) as (all & Hp & _ & ->). intros He.
  assert (e ∈ all) as Hall.
  { destruct (qLimit q); simpl in He; [by eapply subseteq_take|done]. }
  rewrite Hp in Hall. by apply list_elem_of_filter in Hall as [? ?].
Qed.

Lemma run_length q s n : qLimit q = Some n → (length (run q s) ≤ n)%nat.
Proof.
  intros Hn. destruct (run_spec q s) as (all & _ & _ & ->).
  rewrite Hn. simpl. rewrite length_take. lia.
Qed.

Lemma assoc_Some_elem {A} name (l : list (string * A)) v :
  assoc name l = Some v → (name, v) ∈ l.
Proof.
  unfold assoc. destruct (list_find _ l) as [[i [k x]]|] eqn:Hfind; [|done].
  apply list_find_Some in Hfind as (Hi & Hk & _). simpl in *.
  intros [= <-]. subst k. by eapply list_elem_of_lookup_2.
Qed.

(** A loaded struct holds, in the field of a property, the value the
    entity has for it. *)
Lemma load_struct_field {A} (set : A → string * Value → option A) (zero : A)
    (field : A → Value) (name : string) :
  (∀ a v a', set a (name, v) = Some a' → field a' = v) →
  (∀ a m v a', m ≠ name → set a (m, v) = Some a' → field a' = field a) →
  ∀ ps a v, load_struct set zero ps = Some a → assoc name ps = Some v → field a = v.
Proof.
  intros Hset Hkeep ps a v. unfold load_struct. case_bool_decide as Hnd; [|done].
  intros Hfold Hin%assoc_Some_elem. revert a Hnd Hfold Hin.
  induction ps as [|[m x] ps IH] using rev_ind; intros a Hnd Hfold Hin.
  - by apply elem_of_nil in Hin.
  - rewrite foldl_snoc in Hfold.
    destruct (foldl _ (Some zero) ps) as [a1|] eqn:Hps; [|done]. simpl in Hfold.
    rewrite fmap_app in Hnd. apply NoDup_app in Hnd as (Hnd & Hfresh & _).
    apply elem_of_app in Hin as [Hin|Hin].
    + assert (m ≠ name) as Hm.
      { intros ->. apply (Hfresh name); [|set_solver].
        apply list_elem_of_fmap. by exists (name, v). }
      rewrite (Hkeep _ _ _ _ Hm Hfold). by apply IH.
    + apply list_elem_of_singleton in Hin as [= <- <-]. by eapply Hset.
Qed.

End QueryOrder.

(** ** The gates *)

Ltac run_gate :=
  unfold apiHandler_ServeHTTP, appHandler_ServeHTTP, hello.appHandler_ServeHTTP,
    handleAppError, writeJsonResponse, redirect, http_Error, c_Errorf, c_Debugf,
    user_Current, user_LoginURL, time_Now, logf, set_w, set_store, get,
    mbind, M_bind, mret, M_ret; simpl.

Section Gates.

Variables (σ : World) (r : http.Request).

Lemma ServeMux_api :
  http.Path r = "/api/admin/users" →
  ServeMux r = apiHandler_ServeHTTP apiAdminUsersHandler r.
Proof. intros H. unfold ServeMux. by rewrite H. Qed.

Lemma ServeMux_html :
  http.Path r ∈ ["/"; "/my/arrivals"; "/my/leaves"] →
  ∃ fn, fn ∈ [rootHandler; myArrivalsHandler; myLeavesHandler]
        ∧ ServeMux r = appHandler_ServeHTTP fn r.
Proof.
  intros H. unfold ServeMux. repeat apply elem_of_cons in H as [->|H].
  - exists rootHandler. split; [set_solver|done].
  - exists myArrivalsHandler. split; [set_solver|done].
  - exists myLeavesHandler. split; [set_solver|done].
  - by apply elem_of_nil in H.
Qed.

(** The HTML gate, when the handler returns an error without having
    touched the response: the cause goes to the log, and the response is
    the handler's status and its message on a line. The gate of [app.go]
    does the same. *)
Lemma html_gate_error (fn : appHandler) u e σ1 :
  currentUser σ = Some u → fn r σ = Some (Some e, σ1) → w σ1 = http.fresh →
  ∃ σ', appHandler_ServeHTTP fn r σ = Some ((), σ')
    ∧ hello.appHandler_ServeHTTP fn r σ = Some ((), σ')
    ∧ http.status (w σ') = Some (Code e)
    ∧ http.body (w σ') = Message e +:+ nl
    ∧ log σ' = (log σ1 ++ [(LError, fmt_v (Error e))])%list
    ∧ store σ' = store σ1.
Proof.
  intros Hu Hfn Hw. run_gate. rewrite Hu, Hfn. destruct σ1; simpl in *; subst.
  eexists. repeat split.
Qed.

(** The JSON gate in the same situation goes on to write the data the
    handler returned, so the body holds its encoding after the message. *)
Lemma json_gate_error (fn : apiHandler) u data e σ1 :
  currentUser σ = Some u → fn r σ = Some ((data, Some e), σ1) → w σ1 = http.fresh →
  ∃ σ', apiHandler_ServeHTTP fn r σ = Some ((), σ')
    ∧ http.status (w σ') = Some (Code e)
    ∧ http.body (w σ') = Message e +:+ nl +:+ json.Encode data
    ∧ log σ' = (log σ1 ++ [(LError, fmt_v (Error e))])%list
    ∧ store σ' = store σ1.
Proof.
  intros Hu Hfn Hw. run_gate. rewrite Hu, Hfn. destruct σ1; simpl in *; subst.
  eexists. repeat split. exact (append_assoc (Message e) nl (json.Encode data)).
Qed.

(** The JSON gate when the handler returns data and no error. *)
Lemma json_gate_ok (fn : apiHandler) u data σ1 :
  currentUser σ = Some u → fn r σ = Some ((data, None), σ1) → w σ1 = http.fresh →
  ∃ σ', apiHandler_ServeHTTP fn r σ = Some ((), σ')
    ∧ http.status (w σ') = Some http.StatusOK
    ∧ http.body (w σ') = json.Encode data
    ∧ http.sent (w σ') !! "Content-Type" = Some ["application/json"]
    ∧ log σ' = log σ1
    ∧ store σ' = store σ1.
Proof.
  intros Hu Hfn Hw. run_gate. rewrite Hu, Hfn. destruct σ1; simpl in *; subst.
  eexists. repeat split.
Qed.

(** C2. A request to /api/admin/users with no signed-in user: the JSON
    gate answers 500 with the line login needed, whatever handler it
    wraps (so the handler is not run), logs that text, sets no Location
    header and leaves the store alone. *)
Theorem json_gate_login_needed :
  http.Path r = "/api/admin/users" → currentUser σ = None → w σ = http.fresh →
  ∃ σ', ServeMux r σ = Some ((), σ')
    ∧ (∀ fn, apiHandler_ServeHTTP fn r σ = Some ((), σ'))
    ∧ http.status (w σ') = Some http.StatusInternalServerError
    ∧ http.body (w σ') = "login needed" +:+ nl
    ∧ http.sent (w σ') !! "Location" = None
    ∧ log σ' = (log σ ++ [(LError, "login needed")])%list
    ∧ store σ' = store σ.
Proof.
  intros Hp Hu Hw. rewrite (ServeMux_api Hp). destruct σ; simpl in *; subst.
  eexists. split; [run_gate; reflexivity|]. split; [intros fn; run_gate; reflexivity|].
  repeat split.
Qed.

(** C3. A request with no signed-in user to a path behind the HTML gate:
    when the login URL is produced, the response is 302 with that URL as
    its Location and an empty body; when it is not, the response is 500
    with the text of the failure. Either way the outcome is the same for
    every wrapped handler, and for the gate of [app.go]. *)
Theorem html_gate_redirects_to_login :
  http.Path r ∈ ["/"; "/my/arrivals"; "/my/leaves"] →
  currentUser σ = None → w σ = http.fresh →
  ∃ σ', ServeMux r σ = Some ((), σ')
    ∧ (∀ fn, appHandler_ServeHTTP fn r σ = Some ((), σ'))
    ∧ (∀ fn, ∃ σ'', hello.appHandler_ServeHTTP fn r σ = Some ((), σ'') ∧ w σ'' = w σ')
    ∧ store σ' = store σ
    ∧ match loginURL σ (http.URL r) with
      | Ok url =>
          http.status (w σ') = Some http.StatusFound
          ∧ http.sent (w σ') !! "Location" = Some [url]
          ∧ http.body (w σ') = ""
      | Err err =>
          http.status (w σ') = Some http.StatusInternalServerError
          ∧ http.body (w σ') = err +:+ nl
          ∧ http.sent (w σ') !! "Location" = None
      end.
Proof.
  intros Hp Hu Hw. destruct (ServeMux_html Hp) as (fn0 & _ & ->).
  destruct σ; simpl in *; subst. run_gate.
  destruct (loginURL0 (http.URL r)) as [url|err]; simpl.
  - eexists. split; [reflexivity|]. split; [done|]. split; [by eexists|].
    split; [done|]. split; [done|]. split; [apply lookup_insert_eq|done].
  - eexists. split; [reflexivity|]. split; [done|]. split; [by eexists|].
    repeat split.
Qed.

End Gates.

Lemma json_gate_login_needed_witness :
  ∃ σ', ServeMux (Examples.request "GET" "/api/admin/users" [])
          (Examples.world None Examples.empty_store) = Some ((), σ')
    ∧ http.status (w σ') = Some 500
    ∧ http.body (w σ') = "login needed" +:+ nl.
Proof.
  destruct (json_gate_login_needed (Examples.world None Examples.empty_store)
              (Examples.request "GET" "/api/admin/users" []))
    as (σ' & H1 & _ & H2 & H3 & _); [reflexivity..|].
  exists σ'. auto.
Defined.

Lemma html_gate_redirects_to_login_witness :
  ∃ σ', ServeMux (Examples.request "POST" "/my/arrivals" [])
          (Examples.world None Examples.empty_store) = Some ((), σ')
    ∧ http.status (w σ') = Some 302
    ∧ http.sent (w σ') !! "Location" = Some ["/_ah/login?continue=/my/arrivals"]
    ∧ http.body (w σ') = "".
Proof.
  destruct (html_gate_redirects_to_login (Examples.world None Examples.empty_store)
              (Examples.request "POST" "/my/arrivals" []))
    as (σ' & H1 & _ & _ & _ & H2); [set_solver|reflexivity..|].
  exists σ'. split; [exact H1|exact H2].
Defined.

(** ** Inserting under an incomplete key *)

Section Insert.

Import datastore.

Lemma filter_all {A} (P : A → Prop) `{∀ x, Decision (P x)} (l : list A) :
  Forall P l → filter P l = l.
Proof.
  induction 1 as [|x l Hx Hl IH]; [done|]. by rewrite filter_cons_True, IH.
Qed.

Lemma foldr_max_above (l : list Z) x : x ∈ l → x ≤ foldr Z.max 0 l.
Proof.
  induction l as [|y l IH]; intros Hx; [by apply elem_of_nil in Hx|].
  cbn [foldr]. apply elem_of_cons in Hx as [->|Hx]; [lia|]. specialize (IH Hx). lia.
Qed.

Lemma fresh_id_above (s : Store) e : e ∈ entities s → IntID (ekey e) < fresh_id s.
Proof.
  intros He. unfold fresh_id.
  assert (IntID (ekey e) ≤ foldr Z.max 0 ((λ e, IntID (ekey e)) <$> entities s)); [|lia].
  apply foldr_max_above, list_elem_of_fmap. by exists e.
Qed.

(** The key of an inserted entity is the key of no stored entity. *)
Lemma inserted_key_fresh {A} `{PropertyLoadSaver A} kind (src : A) (s : Store) e :
  e ∈ entities s → ekey e ≠ ekey (inserted kind src s).
Proof.
  intros He%fresh_id_above Heq. rewrite Heq in He. simpl in He. lia.
Qed.

Lemma Put_incomplete {A} `{PropertyLoadSaver A} kind (src : A) (s : Store) :
  write_fault s = None →
  Put (NewIncompleteKey kind (Some punchKey)) src s
  = Ok (ekey (inserted kind src s),
        {| entities := (entities s ++ [inserted kind src s])%list;
           read_fault := read_fault s; write_fault := write_fault s |}).
Proof.
  intros Hw. unfold Put. rewrite Hw. unfold complete. simpl. do 3 f_equal.
  apply (f_equal (λ l, l ++ [inserted kind src s])%list).
  apply filter_all, Forall_forall. intros e He.
  by apply (inserted_key_fresh kind src).
Qed.

Lemma Put_fault {A} `{PropertyLoadSaver A} key (src : A) (s : Store) err :
  write_fault s = Some err → Put key src s = Err err.
Proof. intros Hw. unfold Put. by rewrite Hw. Qed.

(** An inserted user is a result of the list query. *)
Lemma inserted_user_matches (u : User) (s : Store) :
  matches usersQuery (inserted "User" u s).
Proof.
  split; [done|]. split.
  - simpl. by apply prefix_app_r.
  - simpl. repeat constructor; by eexists.
Qed.

End Insert.

(** ** The handlers *)

Ltac run_handler :=
  unfold datastore_GetAll, datastore_Put, deref, panic; run_gate.

Section Handlers.

Variables (σ : World) (r : http.Request).

Lemma createPunch_ok u punchType :
  currentUser σ = Some u → datastore.write_fault (store σ) = None →
  ∃ σ1, createPunch punchType σ = Some (None, σ1)
    ∧ w σ1 = w σ ∧ log σ1 = log σ
    ∧ datastore.entities (store σ1)
      = (datastore.entities (store σ)
           ++ [inserted "Punch" {| Puncher := user.Email u; Type_ := punchType;
                                   Time := clock σ |} (store σ)])%list.
Proof.
  intros Hu Hf. unfold createPunch. run_handler. rewrite Hu. simpl.
  rewrite (Put_incomplete _ _ _ Hf). simpl. eexists. repeat split.
Qed.

Lemma createPunch_fault u punchType err :
  currentUser σ = Some u → datastore.write_fault (store σ) = Some err →
  createPunch punchType σ
  = Some (Some {| Error := Some err;
                  Message := "Failed to put a punch data to the datastore";
                  Code := http.StatusInternalServerError |}, σ).
Proof.
  intros Hu Hf. unfold createPunch. run_handler. rewrite Hu. simpl.
  by rewrite (Put_fault _ _ _ _ Hf).
Qed.

Lemma ServeMux_punch punchType :
  punch_route (http.Path r) punchType →
  ServeMux r = appHandler_ServeHTTP (punchHandler punchType) r.
Proof. intros [[Hp ->]|[Hp ->]]; unfold ServeMux; by rewrite Hp. Qed.

(** C5. A signed-in POST to /my/arrivals (to /my/leaves): the punch put
    to the store carries the email of the user, the type arrival (leave)
    and the time of the clock; when the store accepts it, it is stored
    under the fixed parent with an identifier no stored key has, nothing
    else in the store changes, and the response is 302 with Location /;
    when the store refuses it, the store is unchanged and the response
    is 500. *)
Theorem punch_post_creates_and_redirects u punchType :
  punch_route (http.Path r) punchType → http.Method r = "POST" →
  currentUser σ = Some u → w σ = http.fresh →
  ∃ σ', ServeMux r σ = Some ((), σ')
    ∧ match datastore.write_fault (store σ) with
      | None =>
          let p := {| Puncher := user.Email u; Type_ := punchType; Time := clock σ |} in
          datastore.entities (store σ')
          = (datastore.entities (store σ) ++ [inserted "Punch" p (store σ)])%list
          ∧ datastore.Ancestors (datastore.ekey (inserted "Punch" p (store σ)))
            = datastore.path punchKey
          ∧ (∀ e, e ∈ datastore.entities (store σ) →
                  datastore.ekey e ≠ datastore.ekey (inserted "Punch" p (store σ)))
          ∧ http.status (w σ') = Some http.StatusFound
          ∧ http.sent (w σ') !! "Location" = Some ["/"]
          ∧ http.body (w σ') = ""
      | Some _ =>
          store σ' = store σ
          ∧ http.status (w σ') = Some http.StatusInternalServerError
          ∧ http.body (w σ') = "Failed to put a punch data to the datastore" +:+ nl
      end.
Proof.
  intros Hroute Hm Hu Hw. rewrite (ServeMux_punch _ Hroute).
  destruct (datastore.write_fault (store σ)) as [err|] eqn:Hf.
  - edestruct (html_gate_error σ r (punchHandler punchType))
      as (σ' & Hrun & _ & Hst & Hbody & _ & Hstore); [exact Hu| |exact Hw|].
    { unfold punchHandler. rewrite Hm. simpl. unfold mbind, M_bind.
      by rewrite (createPunch_fault u punchType err Hu Hf). }
    exists σ'. by rewrite Hrun, Hstore.
  - destruct (createPunch_ok u punchType Hu Hf) as (σ1 & Hcreate & Hw1 & _ & Hents).
    unfold appHandler_ServeHTTP, punchHandler. run_gate. rewrite Hu, Hm. simpl.
    unfold mbind, M_bind. rewrite Hcreate. run_gate.
    eexists. split; [reflexivity|]. simpl. rewrite Hw1, Hw. simpl.
    split; [exact Hents|]. split; [done|].
    split.
    { intros e. exact (inserted_key_fresh "Punch"
        {| Puncher := user.Email u; Type_ := punchType; Time := clock σ |} (store σ) e). }
    split; [done|]. split; [apply lookup_insert_eq|done].
Qed.

(** C6. A signed-in request to /my/arrivals or /my/leaves by a method
    other than POST changes nothing at all: the store, the log and the
    response are as before, so the client receives 200 and an empty
    body. *)
Theorem punch_other_method_is_noop u :
  http.Path r ∈ ["/my/arrivals"; "/my/leaves"] → http.Method r ≠ "POST" →
  currentUser σ = Some u → w σ = http.fresh →
  ServeMux r σ = Some ((), σ)
  ∧ http.final_status (w σ) = http.StatusOK
  ∧ http.body (w σ) = "".
Proof.
  intros Hp Hm Hu Hw. split; [|by rewrite Hw].
  assert (∃ ty, punch_route (http.Path r) ty) as [ty Hroute].
  { repeat apply elem_of_cons in Hp as [Hp|Hp]; [by exists "arrival"; left
      |by exists "leave"; right|by apply elem_of_nil in Hp]. }
  rewrite (ServeMux_punch _ Hroute). unfold appHandler_ServeHTTP, punchHandler.
  run_gate. rewrite Hu. by rewrite bool_decide_eq_false_2.
Qed.

End Handlers.

Lemma punch_post_creates_and_redirects_witness :
  ∃ σ', ServeMux (Examples.request "POST" "/my/leaves" [])
          (Examples.world (Some Examples.alice) Examples.empty_store) = Some ((), σ')
    ∧ datastore.entities (store σ')
      = [inserted "Punch" {| Puncher := "alice@example.com"; Type_ := "leave";
                             Time := 1709210096 |} Examples.empty_store]
    ∧ http.status (w σ') = Some 302.
Proof.
  destruct (punch_post_creates_and_redirects
              (Examples.world (Some Examples.alice) Examples.empty_store)
              (Examples.request "POST" "/my/leaves" []) Examples.alice "leave")
    as (σ' & Hrun & Hents & _ & _ & Hst & _); [by right|reflexivity..|].
  exists σ'. auto.
Defined.

Lemma punch_other_method_is_noop_witness :
  ServeMux (Examples.request "GET" "/my/arrivals" [])
    (Examples.world (Some Examples.alice) Examples.empty_store)
  = Some ((), Examples.world (Some Examples.alice) Examples.empty_store).
Proof.
  apply (punch_other_method_is_noop
           (Examples.world (Some Examples.alice) Examples.empty_store)
           (Examples.request "GET" "/my/arrivals" []) Examples.alice);
    [set_solver|done|reflexivity|reflexivity].
Defined.

(** ** What the two queries return *)

Section Results.

Import datastore.

Lemma Punch_load_Time ps p v :
  Load ps = Some p → assoc "Time" ps = Some v → v = PTime (Time p).
Proof.
  intros Hload Hv. symmetry. revert Hload Hv.
  apply (load_struct_field Punch_load_field _ (λ p, PTime (Time p))).
  - intros a x a'. unfold Punch_load_field. destruct x; simpl; [|done..].
    by intros [= <-].
  - intros a m x a' Hm. unfold Punch_load_field. destruct x; simpl;
      repeat case_bool_decide; try done; by intros [= <-].
Qed.

Lemma User_load_Name ps u v :
  Load ps = Some u → assoc "Name" ps = Some v → v = PString (Name u).
Proof.
  intros Hload Hv. symmetry. revert Hload Hv.
  apply (load_struct_field User_load_field _ (λ u, PString (Name u))).
  - intros a x a'. unfold User_load_field. destruct x; simpl; [done..|].
    by intros [= <-].
  - intros a m x a' Hm. unfold User_load_field. destruct x; simpl;
      repeat case_bool_decide; try done; by intros [= <-].
Qed.

Lemma GetAll_Ok {A} `{PropertyLoadSaver A} q s (l : list A) :
  GetAll q s = Ok l →
  read_fault s = None ∧ Forall2 (λ e a, Load (props e) = Some a) (run q s) l.
Proof.
  unfold GetAll. destruct (read_fault s); [done|].
  destruct (mapM Load (props <$> run q s)) as [l'|] eqn:Hl; [|done].
  intros [= <-]. split; [done|]. apply mapM_Some_1 in Hl. by apply Forall2_fmap_l in Hl.
Qed.

(** The punches of the root page: ten at most, oldest first, each loaded
    from a result of the query, which are entities of kind Punch stored
    under the fixed parent. *)
Lemma GetAll_rootQuery s punches :
  GetAll rootQuery s = Ok punches →
  (length punches ≤ 10)%nat
  ∧ Sorted Z.le (Time <$> punches)
  ∧ Forall2 (λ e p, Load (props e) = Some p) (run rootQuery s) punches
  ∧ Forall (λ e, e ∈ entities s ∧ Kind (ekey e) = "Punch"
                 ∧ path punchKey `prefix_of` path (ekey e)) (run rootQuery s).
Proof.
  intros [_ Hload]%GetAll_Ok. split; [|split; [|split; [done|]]].
  - rewrite <- (Forall2_length _ _ _ Hload). by apply (run_length rootQuery s 10).
  - apply (Sorted_fmap Time (λ p1 p2, Time p1 ≤ Time p2)); [done|].
    apply (Sorted_Forall2 (Entity_le ["Time"]) _ _ _ _ Hload); [|apply (run_Sorted rootQuery)].
    intros e1 e2 p1 p2 [_ (_ & _ & Hs1)]%run_elem [_ (_ & _ & Hs2)]%run_elem Hp1 Hp2.
    apply Forall_singleton in Hs1 as [v1 Hv1], Hs2 as [v2 Hv2].
    intros Hle%(Entity_le_first _ _ _ _ _ Hv1 Hv2).
    by rewrite (Punch_load_Time _ _ _ Hp1 Hv1), (Punch_load_Time _ _ _ Hp2 Hv2) in Hle.
  - apply Forall_forall. intros e [He (Hk & Ha & _)]%run_elem. done.
Qed.

(** The users of the list: by name, each loaded from a result of the
    query, which are entities of kind User stored under the parent of
    the punches. *)
Lemma GetAll_usersQuery s users :
  GetAll usersQuery s = Ok users →
  Sorted name_le (Name <$> users)
  ∧ Forall2 (λ e u, Load (props e) = Some u) (run usersQuery s) users
  ∧ run usersQuery s ≡ₚ filter (matches usersQuery) (entities s)
  ∧ Forall (λ e, Kind (ekey e) = "User"
                 ∧ path punchKey `prefix_of` path (ekey e)) (run usersQuery s).
Proof.
  intros [_ Hload]%GetAll_Ok. split; [|split; [done|split]].
  - apply (Sorted_fmap Name (λ u1 u2, name_le (Name u1) (Name u2))); [done|].
    apply (Sorted_Forall2 (Entity_le ["Name"]) _ _ _ _ Hload); [|apply (run_Sorted usersQuery)].
    intros e1 e2 u1 u2 [_ (_ & _ & Hs1)]%run_elem [_ (_ & _ & Hs2)]%run_elem Hu1 Hu2.
    apply Forall_singleton in Hs1 as [v1 Hv1], Hs2 as [v2 Hv2].
    intros Hle%(Entity_le_first _ _ _ _ _ Hv1 Hv2).
    by rewrite (User_load_Name _ _ _ Hu1 Hv1), (User_load_Name _ _ _ Hu2 Hv2) in Hle.
  - apply merge_sort_Permutation.
  - apply Forall_forall. intros e [He (Hk & Ha & _)]%run_elem. done.
Qed.


End Results.

(** ** The root page *)

Section RootPage.

Variables (σ : World) (r : http.Request).

Lemma rootHandler_run u :
  currentUser σ = Some u →
  match datastore.GetAll rootQuery (store σ) with
  | Err err =>
      rootHandler r σ
      = Some (Some {| Error := Some err;
                      Message := "Failed to fetch punches data from the datastore";
                      Code := http.StatusInternalServerError |}, σ)
  | Ok punches =>
      ∃ σ1, rootHandler r σ = Some (None, σ1)
        ∧ w σ1 = http.Write (rootTemplate_render {| dUser := Some u; dPunches := punches |})
                   (w σ)
        ∧ store σ1 = store σ ∧ log σ1 = log σ
  end.
Proof.
  intros Hu. unfold rootHandler, rootTemplate_Execute. run_handler. rewrite Hu.
  fold rootQuery. destruct (datastore.GetAll rootQuery (store σ)) as [punches|err]; [|done].
  eexists. repeat split.
Qed.


End RootPage.


(** ** The admin user API *)

Section AdminUsers.

Variables (σ : World) (r : http.Request).

Lemma foldl_append {A} (f : A → any) (l : list A) acc :
  foldl (λ jsonUsers x, append jsonUsers (f x)) acc l
  = match l with
    | [] => acc
    | _ :: _ => Some (default [] acc ++ (f <$> l))%list
    end.
Proof.
  revert acc. induction l as [|x l IH]; intros acc; [done|].
  cbn [foldl]. rewrite IH. unfold append. destruct l as [|y l]; [done|].
  simpl. by rewrite <- !app_assoc.
Qed.

Lemma apiAdminUsersHandler_GET :
  http.Method r = "GET" →
  apiAdminUsersHandler r σ
  = Some (match datastore.GetAll usersQuery (store σ) with
          | Err err =>
              (VNil, Some {| Error := Some err;
                             Message := "Failed to fetch users data from the datastore";
                             Code := http.StatusInternalServerError |})
          | Ok users =>
              (VMap [("users",
                      VSlice match users with
                             | [] => None
                             | _ :: _ =>
                                 Some ((λ u, jsonUser (Email u) (Name u) (Enabled u))
                                         <$> users)
                             end)], None)
          end, σ).
Proof.
  intros Hm. unfold apiAdminUsersHandler. rewrite Hm. simpl. run_handler.
  fold usersQuery. destruct (datastore.GetAll usersQuery (store σ)) as [users|err]; [|done].
  by rewrite (foldl_append (λ u, jsonUser (Email u) (Name u) (Enabled u))).
Qed.





Lemma apiAdminUsersHandler_POST_rejected b e :
  http.Method r = "POST" → getFormBoolValue r "enabled" true = (b, Some e) →
  apiAdminUsersHandler r σ = Some ((VNil, Some e), σ).
Proof. intros Hm Hg. unfold apiAdminUsersHandler. by rewrite Hm, Hg. Qed.

(** C9. A request to the admin handler by a method that is neither GET
    nor POST: the handler returns the error with status 400 and the
    message Unsupported http method and leaves the whole request state,
    the store included, as it was; behind the gate the client receives
    status 400. *)
Theorem admin_other_method_rejected u :
  http.Method r ≠ "GET" → http.Method r ≠ "POST" →
  apiAdminUsersHandler r σ
  = Some ((VNil, Some {| Error := Some "Unsupported http method";
                         Message := "Unsupported http method";
                         Code := http.StatusBadRequest |}), σ)
  ∧ (http.Path r = "/api/admin/users" → currentUser σ = Some u → w σ = http.fresh →
     ∃ σ', ServeMux r σ = Some ((), σ')
       ∧ store σ' = store σ
       ∧ http.status (w σ') = Some http.StatusBadRequest).
Proof.
  intros Hg Hp.
  assert (apiAdminUsersHandler r σ
          = Some ((VNil, Some {| Error := Some "Unsupported http method";
                                 Message := "Unsupported http method";
                                 Code := http.StatusBadRequest |}), σ)) as Hrun.
  { unfold apiAdminUsersHandler. by rewrite !bool_decide_eq_false_2. }
  split; [done|]. intros Hpath Hu Hw. rewrite (ServeMux_api r Hpath).
  destruct (json_gate_error σ r apiAdminUsersHandler u _ _ σ Hu Hrun Hw)
    as (σ' & Hserve & Hst & _ & _ & Hs).
  by exists σ'.
Qed.


End AdminUsers.

Lemma admin_other_method_rejected_witness :
  ∃ σ', ServeMux (Examples.request "DELETE" "/api/admin/users" [])
          (Examples.world (Some Examples.alice) Examples.empty_store) = Some ((), σ')
    ∧ store σ' = Examples.empty_store
    ∧ http.status (w σ') = Some 400.
Proof.
  destruct (admin_other_method_rejected
              (Examples.world (Some Examples.alice) Examples.empty_store)
              (Examples.request "DELETE" "/api/admin/users" []) Examples.alice)
    as [_ H]; [done|done|].
  apply H; reflexivity.
Defined.


Section AdminList.

Variables (σ : World) (r : http.Request).


(** The list, when the query returns no user: the slice of the users is
    never appended to, and the envelope holds it as it was declared. *)
Lemma admin_get_no_users u :
  http.Path r = "/api/admin/users" → http.Method r = "GET" →
  currentUser σ = Some u → w σ = http.fresh →
  datastore.GetAll usersQuery (store σ) = Ok ([] : list User) →
  ∃ σ', ServeMux r σ = Some ((), σ')
    ∧ http.status (w σ') = Some http.StatusOK
    ∧ http.body (w σ') = json.Encode (VMap [("users", VSlice None)]).
Proof.
  intros Hpath Hm Hu Hw Hget. rewrite (ServeMux_api r Hpath).
  pose proof (apiAdminUsersHandler_GET σ r Hm) as Hrun. rewrite Hget in Hrun.
  destruct (json_gate_ok σ r apiAdminUsersHandler u _ σ Hu Hrun Hw)
    as (σ' & Hserve & Hst & Hbody & _).
  by exists σ'.
Qed.


End AdminList.


(** C1. The JSON gate does not stop after it has answered for the error of
    its handler. For a signed-in DELETE of /api/admin/users the handler
    returns the error Unsupported http method with status 400 and no data;
    the gate logs the cause and writes the message with status 400, then
    goes on to write the data, so the body holds a line null after the
    message and is not the message alone. *)
Theorem json_gate_writes_data_after_error :
  ∃ σ', ServeMux (Examples.request "DELETE" "/api/admin/users" [])
          (Examples.world (Some Examples.alice) Examples.empty_store) = Some ((), σ')
    ∧ log σ' = [(LError, "Unsupported http method")]
    ∧ http.status (w σ') = Some 400
    ∧ http.body (w σ') = "Unsupported http method" +:+ nl +:+ "null" +:+ nl
    ∧ http.body (w σ') ≠ "Unsupported http method" +:+ nl.
Proof.
  eexists. split; [vm_compute; reflexivity|]. by repeat split.
Qed.

(** C8. For a signed-in GET of /api/admin/users on a store without users
    the response is 200 and its envelope holds null under the key users,
    not an array: the slice of the users is declared nil and only ever
    appended to, and a nil slice is encoded as null. *)
Theorem admin_get_empty_store_encodes_null :
  ∃ σ', ServeMux (Examples.request "GET" "/api/admin/users" [])
          (Examples.world (Some Examples.alice) Examples.empty_store) = Some ((), σ')
    ∧ http.status (w σ') = Some 200
    ∧ http.body (w σ') = "{" +:+ dq +:+ "users" +:+ dq +:+ ":null}" +:+ nl
    ∧ http.body (w σ') ≠ json.Encode (VMap [("users", VSlice (Some []))]).
Proof.
  eexists. split; [vm_compute; reflexivity|]. by repeat split.
Qed.


(** * Further properties of the gates and handlers *)

(** ** The two HTML gates *)

(** X1. The HTML gate of [package timecard] and the gate of [app.go] answer
    every request alike: they panic together, and otherwise leave the same
    response and the same store. The request states they leave are equal
    except when nobody is signed in and the login URL fails: there the
    later gate has logged the failure and the earlier one has logged
    nothing. *)
Theorem html_gates_agree (fn : appHandler) (r : http.Request) (σ : World) :
  match appHandler_ServeHTTP fn r σ, hello.appHandler_ServeHTTP fn r σ with
  | Some (_, σ1), Some (_, σ2) =>
      w σ1 = w σ2 ∧ store σ1 = store σ2
      ∧ match currentUser σ, loginURL σ (http.URL r) with
        | None, Err err => log σ1 = (log σ ++ [(LError, err)])%list ∧ log σ2 = log σ
        | _, _ => σ1 = σ2
        end
  | None, None => True
  | _, _ => False
  end.
Proof.
  destruct σ as [u login clock store log w]. run_gate.
  destruct u as [u|]; simpl.
  - destruct (fn r _) as [[[e|] σ1]|]; simpl; done.
  - destruct (login (http.URL r)) as [url|err]; simpl; done.
Qed.

(** ** No request panics *)

(** X2. [createPunch] reads the email of the current user without a nil
    check and panics when nobody is signed in; behind the gates this does
    not happen: every request, whatever its path, method, form and the
    state of the platform, runs to its end. *)
Theorem requests_never_panic :
  (∀ σ r, ∃ σ', ServeMux r σ = Some ((), σ'))
  ∧ (∀ σ punchType, currentUser σ = None → createPunch punchType σ = None).
Proof.
  split.
  - intros [u login clock store log w] r.
    unfold ServeMux, myArrivalsHandler, myLeavesHandler, rootHandler, apiAdminUsersHandler,
      createPunch, rootTemplate_Execute, getFormBoolValue.
    run_handler. unfold datastore.Put.
    repeat case_match; simplify_eq/=; eauto.
  - intros σ ty Hu. unfold createPunch. run_handler. by rewrite Hu.
Qed.

Lemma requests_never_panic_witness :
  createPunch "arrival" (Examples.world None Examples.empty_store) = None.
Proof.
  destruct requests_never_panic as [_ H]. by apply H.
Defined.

(** ** What changes the store *)

Section StoreFrame.

Variables (σ : World) (r : http.Request).

Lemma datastore_Put_store {A} `{datastore.PropertyLoadSaver A} kind (src : A) (σ0 : World) :
  ∃ res σ1, datastore_Put (datastore.NewIncompleteKey kind (Some punchKey)) src σ0
            = Some (res, σ1)
    ∧ (store σ1 = store σ0 ∨ grown_by kind (store σ0) (store σ1)).
Proof.
  unfold datastore_Put. run_gate.
  destruct (datastore.write_fault (store σ0)) as [err|] eqn:Hf.
  - rewrite (Put_fault _ _ _ _ Hf). simpl. eauto.
  - rewrite (Put_incomplete _ _ _ Hf). simpl. do 2 eexists. split; [done|].
    right. exists (inserted kind src (store σ0)). by split.
Qed.

Lemma grown_by_grown kind s s' : grown_by kind s s' → grown s s'.
Proof. intros (e & _ & ->). by exists e. Qed.

Lemma rootHandler_store u :
  currentUser σ = Some u → ∃ e σ1, rootHandler r σ = Some (e, σ1) ∧ store σ1 = store σ.
Proof.
  intros Hu. pose proof (rootHandler_run σ r u Hu) as Hroot.
  destruct (datastore.GetAll rootQuery (store σ)); [|by eauto].
  destruct Hroot as (σ1 & Hrun & _ & Hs & _). eauto.
Qed.

Lemma punchHandler_store u punchType :
  currentUser σ = Some u →
  ∃ e σ1, punchHandler punchType r σ = Some (e, σ1)
    ∧ (store σ1 = store σ ∨ grown_by "Punch" (store σ) (store σ1) ∧ http.Method r = "POST").
Proof.
  intros Hu. unfold punchHandler. case_bool_decide as Hm; [|by eauto].
  unfold createPunch. run_handler. rewrite Hu. simpl.
  destruct (datastore_Put_store "Punch"
              {| Puncher := user.Email u; Type_ := punchType; Time := clock σ |} σ)
    as (res & σ1 & Hput & Hs).
  unfold datastore_Put in Hput. revert Hput. run_gate. intros ->.
  destruct res as [k|err]; simpl; do 2 eexists; (split; [done|]); simpl; tauto.
Qed.

Lemma apiAdminUsersHandler_store :
  ∃ res σ1, apiAdminUsersHandler r σ = Some (res, σ1)
    ∧ (store σ1 = store σ ∨ grown_by "User" (store σ) (store σ1) ∧ http.Method r = "POST").
Proof.
  destruct (decide (http.Method r = "GET")) as [Hget|Hget].
  { rewrite (apiAdminUsersHandler_GET σ r Hget). eauto. }
  destruct (decide (http.Method r = "POST")) as [Hpost|Hpost].
  - destruct (getFormBoolValue r "enabled" true) as [b [e|]] eqn:Hg.
    { rewrite (apiAdminUsersHandler_POST_rejected σ r b e Hpost Hg). eauto. }
    unfold apiAdminUsersHandler. rewrite Hpost, Hg. simpl. run_gate.
    match goal with
    | |- context [datastore_Put ?k ?u ?σ0] =>
        destruct (datastore_Put_store "User" u σ0) as (res & σ1 & Hput & Hs)
    end.
    unfold datastore.NewIncompleteKey in *. rewrite Hput.
    destruct res as [k|err]; simpl; do 2 eexists; (split; [done|]); simpl in *; tauto.
  - unfold apiAdminUsersHandler. rewrite !bool_decide_eq_false_2 by done. eauto.
Qed.

Lemma html_gate_store (fn : appHandler) u e σ1 :
  currentUser σ = Some u → fn r σ = Some (e, σ1) →
  ∃ σ', appHandler_ServeHTTP fn r σ = Some ((), σ') ∧ store σ' = store σ1.
Proof.
  intros Hu Hfn. run_gate. rewrite Hu, Hfn. destruct e; simpl; eauto.
Qed.

Lemma json_gate_store (fn : apiHandler) u res σ1 :
  currentUser σ = Some u → fn r σ = Some (res, σ1) →
  ∃ σ', apiHandler_ServeHTTP fn r σ = Some ((), σ') ∧ store σ' = store σ1.
Proof.
  intros Hu Hfn. run_gate. rewrite Hu, Hfn. destruct res as [data [e|]]; simpl; eauto.
Qed.

Lemma gates_store_unauthenticated :
  currentUser σ = None →
  (∀ fn, ∃ σ', appHandler_ServeHTTP fn r σ = Some ((), σ') ∧ store σ' = store σ)
  ∧ (∀ fn, ∃ σ', apiHandler_ServeHTTP fn r σ = Some ((), σ') ∧ store σ' = store σ).
Proof.
  intros Hu. split; intros fn; run_gate; rewrite Hu; simpl; [|by eauto].
  destruct (loginURL σ (http.URL r)); simpl; eauto.
Qed.

Lemma ServeMux_store (σ' : World) :
  ServeMux r σ = Some ((), σ') →
  store σ' = store σ
  ∨ (http.Method r = "POST" ∧ is_Some (currentUser σ)
     ∧ ((http.Path r ∈ ["/my/arrivals"; "/my/leaves"] ∧ grown_by "Punch" (store σ) (store σ'))
        ∨ (http.Path r = "/api/admin/users" ∧ grown_by "User" (store σ) (store σ')))).
Proof.
  intros Hrun.
  assert (∃ σ'', ServeMux r σ = Some ((), σ'')
            ∧ (store σ'' = store σ
               ∨ (http.Method r = "POST" ∧ is_Some (currentUser σ)
                  ∧ ((http.Path r ∈ ["/my/arrivals"; "/my/leaves"]
                      ∧ grown_by "Punch" (store σ) (store σ''))
                     ∨ (http.Path r = "/api/admin/users"
                        ∧ grown_by "User" (store σ) (store σ''))))))
    as (σ'' & Hrun' & Hs).
  { destruct (currentUser σ) as [u|] eqn:Hu.
    - unfold ServeMux. repeat case_bool_decide.
      + change myArrivalsHandler with (punchHandler "arrival").
        destruct (punchHandler_store u "arrival" Hu) as (e & σ1 & Hfn & Hs).
        destruct (html_gate_store _ u e σ1 Hu Hfn) as (σ'' & -> & Hs').
        exists σ''. rewrite Hs'. split; [done|].
        destruct Hs as [?|[? ?]]; [by left|right].
        split; [done|]. split; [done|]. left. split; [|done].
        match goal with H : http.Path r = _ |- _ => rewrite H end. by left.
      + change myLeavesHandler with (punchHandler "leave").
        destruct (punchHandler_store u "leave" Hu) as (e & σ1 & Hfn & Hs).
        destruct (html_gate_store _ u e σ1 Hu Hfn) as (σ'' & -> & Hs').
        exists σ''. rewrite Hs'. split; [done|].
        destruct Hs as [?|[? ?]]; [by left|right].
        split; [done|]. split; [done|]. left. split; [|done].
        match goal with H : http.Path r = _ |- _ => rewrite H end. by right; left.
      + destruct apiAdminUsersHandler_store as (res & σ1 & Hfn & Hs).
        destruct (json_gate_store _ u res σ1 Hu Hfn) as (σ'' & -> & Hs').
        exists σ''. rewrite Hs'. split; [done|].
        destruct Hs as [?|[? ?]]; [by left|right].
        split; [done|]. split; [done|]. by right.
      + destruct (rootHandler_store u Hu) as (e & σ1 & Hfn & Hs).
        destruct (html_gate_store _ u e σ1 Hu Hfn) as (σ'' & -> & Hs').
        exists σ''. rewrite Hs'. split; [done|]. by left.
    - destruct (gates_store_unauthenticated Hu) as [Hhtml Hjson].
      unfold ServeMux. repeat case_bool_decide;
        [destruct (Hhtml myArrivalsHandler) as (σ'' & -> & ?)
        |destruct (Hhtml myLeavesHandler) as (σ'' & -> & ?)
        |destruct (Hjson apiAdminUsersHandler) as (σ'' & -> & ?)
        |destruct (Hhtml rootHandler) as (σ'' & -> & ?)]; eauto. }
  rewrite Hrun in Hrun'. by simplify_eq.
Qed.

(** X3. Whatever the request and the state of the platform, serving it
    either leaves the store exactly as it was or adds one entity at its
    end, keeping every stored entity; and the store is only added to by a
    POST of a signed-in user to /my/arrivals, /my/leaves or
    /api/admin/users. No request removes or rewrites an entity. *)
Theorem store_changes_only_on_post (σ' : World) :
  ServeMux r σ = Some ((), σ') →
  store σ' = store σ
  ∨ (grown (store σ) (store σ')
     ∧ http.Method r = "POST" ∧ is_Some (currentUser σ)
     ∧ http.Path r ∈ ["/my/arrivals"; "/my/leaves"; "/api/admin/users"]).
Proof.
  intros [Hs|(Hm & Hu & [[Hp Hg]|[Hp Hg]])]%ServeMux_store; [by left|right..];
    apply grown_by_grown in Hg; (split; [done|]); (split; [done|]); (split; [done|]).
  - repeat (apply elem_of_cons in Hp as [->|Hp]); [by left|by right; left|].
    by apply elem_of_nil in Hp.
  - rewrite Hp. by do 2 right; left.
Qed.

(** The results of a query are not affected by a new entity of another
    kind. *)
Lemma GetAll_other_kind {A} `{datastore.PropertyLoadSaver A} q kind s s' :
  grown_by kind s s' → kind ≠ datastore.qKind q →
  datastore.GetAll q s' = (datastore.GetAll q s : result (list A)).
Proof.
  intros (e & Hk & ->) Hne. unfold datastore.GetAll, datastore.run. simpl.
  rewrite filter_app, (filter_cons_False _ e []), filter_nil, app_nil_r; [done|].
  intros (Hkind & _). congruence.
Qed.

(** X11. Users and punches are stored under the same parent key, yet the
    two queries do not see each other's records: whatever a request to
    /api/admin/users does, the query of the root page returns afterwards
    what it returned before, and whatever a request to any other path
    does, the list query of the users returns what it returned before. *)
Theorem posts_do_not_cross (σ' : World) :
  ServeMux r σ = Some ((), σ') →
  (http.Path r = "/api/admin/users" →
   datastore.GetAll rootQuery (store σ')
   = (datastore.GetAll rootQuery (store σ) : result (list Punch)))
  ∧ (http.Path r ≠ "/api/admin/users" →
     datastore.GetAll usersQuery (store σ')
     = (datastore.GetAll usersQuery (store σ) : result (list User))).
Proof.
  intros [Hs|(_ & _ & [[Hp Hg]|[Hp Hg]])]%ServeMux_store.
  - by rewrite Hs.
  - split; [|intros _; by apply (GetAll_other_kind usersQuery "Punch")].
    intros Hpath. rewrite Hpath in Hp.
    repeat (apply elem_of_cons in Hp as [Hp|Hp]; [done|]). by apply elem_of_nil in Hp.
  - split; [|done]. intros _. by apply (GetAll_other_kind rootQuery "User").
Qed.

End StoreFrame.

Lemma store_changes_only_on_post_witness :
  ∃ σ', ServeMux (Examples.request "POST" "/my/arrivals" [])
          (Examples.world (Some Examples.alice) Examples.empty_store) = Some ((), σ')
    ∧ grown Examples.empty_store (store σ').
Proof.
  eexists. split; [vm_compute; reflexivity|].
  edestruct (store_changes_only_on_post
               (Examples.world (Some Examples.alice) Examples.empty_store)
               (Examples.request "POST" "/my/arrivals" [])) as [Hsame|[Hgrown _]];
    [vm_compute; reflexivity|discriminate Hsame|exact Hgrown].
Defined.

(** ** The page shows the oldest punches *)

Section OldestTen.

Import datastore.

Lemma Entity_le_class e1 e2 : Entity_le ["Time"] e1 e2 → class_le e1 e2.
Proof.
  unfold Entity_le, Entity_compare, sort_values, class_le. simpl.
  destruct (assoc "Time" (props e1)) as [[a|a|a]|], (assoc "Time" (props e2)) as [[b|b|b]|];
    simpl; try (intros _; lia); try done.
  unfold time.Time in *. destruct (a ?= b) eqn:Hab; simpl; [| |done]; intros _.
  - apply Z.compare_eq in Hab. lia.
  - change (a < b) in Hab. lia.
Qed.

#[local] Instance class_le_trans : Transitive class_le.
Proof. intros e1 e2 e3. unfold class_le. simpl. lia. Qed.

Lemma Sorted_weaken {A} (R R' : relation A) l :
  (∀ x y, R x y → R' x y) → Sorted R l → Sorted R' l.
Proof.
  intros HR. induction 1 as [|x l Hl IH Hx]; constructor; [done|].
  destruct Hx; constructor; auto.
Qed.

Lemma filter_none {A} (P : A → Prop) `{∀ x, Decision (P x)} (l : list A) :
  (∀ x, P x → x ∉ l) → filter P l = [].
Proof.
  intros HP. induction l as [|x l IH]; [done|]. rewrite filter_cons_False.
  - apply IH. intros y Hy Hin. apply (HP y Hy). by right.
  - intros Hx. apply (HP x Hx). by left.
Qed.

(** X4. The root page takes the first ten punches in ascending order of
    time. So a punch entity is not among those the page is built from once
    the fixed collection holds ten punches with an earlier time: the page
    keeps showing the oldest ten, and later punches do not reach it. *)
Theorem root_query_omits_punch_with_ten_older (s : Store) (e : Entity) (t : time.Time) :
  assoc "Time" (props e) = Some (PTime t) →
  (10 ≤ length (filter (older_than t) (filter (matches rootQuery) (entities s))))%nat →
  e ∉ run rootQuery s.
Proof.
  intros Ht Hten Hin.
  destruct (run_spec rootQuery s) as (all & Hperm & Hsorted & Hrun).
  rewrite Hrun in Hin. simpl in Hin.
  apply elem_of_take in Hin as (i & Hi & Hlt).
  apply (Sorted_weaken _ class_le) in Hsorted; [|apply Entity_le_class].
  apply Sorted_StronglySorted in Hsorted; [|apply _].
  rewrite <- (take_drop_middle all i e Hi) in Hsorted, Hperm.
  apply StronglySorted_app in Hsorted as (_ & _ & Hafter).
  apply StronglySorted_cons in Hafter as [Hafter _].
  assert (filter (older_than t) (e :: drop (S i) all) = []) as Hnone.
  { apply filter_none. intros x Hold Hx.
    assert (class_le e x) as Hle.
    { apply elem_of_cons in Hx as [->|Hx]; [unfold class_le; simpl; lia|].
      by eapply Forall_forall in Hafter. }
    unfold older_than in Hold. unfold class_le in Hle. rewrite Ht in Hle.
    destruct (assoc "Time" (props x)) as [[t'| |]|]; simpl in *; try done.
    unfold time.Time in *. lia. }
  rewrite <- Hperm, filter_app, Hnone, app_nil_r in Hten.
  pose proof (length_filter (older_than t) (take i all)) as Hlen.
  rewrite length_take in Hlen. lia.
Qed.

End OldestTen.

(** ** A record that was put is found by the query of its kind *)

Section PutThenQuery.

Import datastore.

Lemma Forall2_Permutation_l {A B} (P : A → B → Prop) l1 l2 k1 :
  l1 ≡ₚ l2 → Forall2 P l1 k1 → ∃ k2, Forall2 P l2 k2 ∧ k1 ≡ₚ k2.
Proof.
  intros Hperm. revert k1.
  induction Hperm as [|x l1 l2 _ IH|x y l|l1 l2 l3 _ IH1 _ IH2]; intros k1 Hk.
  - apply Forall2_nil_inv_l in Hk as ->. by exists [].
  - apply Forall2_cons_inv_l in Hk as (b & k & Hb & Hk & ->).
    destruct (IH k Hk) as (k2 & Hk2 & Hp). exists (b :: k2). split; [by constructor|].
    by constructor.
  - apply Forall2_cons_inv_l in Hk as (b & k & Hb & Hk & ->).
    apply Forall2_cons_inv_l in Hk as (c & k' & Hc & Hk & ->).
    exists (c :: b :: k'). split; [by repeat constructor|]. constructor.
  - destruct (IH1 k1 Hk) as (k2 & Hk2 & Hp1). destruct (IH2 k2 Hk2) as (k3 & Hk3 & Hp2).
    exists k3. split; [done|]. by etrans.
Qed.

(** After one more matching entity is stored, a query that was not cut by
    its limit returns what it returned and what the entity loads as. *)
Lemma GetAll_after_insert {A} `{PropertyLoadSaver A} q (s s' : Store) e (a : A) l :
  GetAll q s = Ok l →
  entities s' = (entities s ++ [e])%list → read_fault s' = read_fault s →
  matches q e → Load (props e) = Some a →
  from_option (λ n, length l < n)%nat True (qLimit q) →
  ∃ l', GetAll q s' = Ok l' ∧ l' ≡ₚ (l ++ [a])%list.
Proof.
  intros [Hfault Hload]%GetAll_Ok Hents Hfault' Hmatch Ha Hlimit.
  assert (run q s' ≡ₚ run q s ++ [e]) as Hrun.
  { destruct (run_spec q s) as (all & Hperm & _ & Hall).
    destruct (run_spec q s') as (all' & Hperm' & _ & Hall').
    rewrite Hents, filter_app, (filter_cons_True _ e []) in Hperm' by done.
    rewrite filter_nil, <- Hperm in Hperm'.
    pose proof (Forall2_length _ _ _ Hload) as Hlen. rewrite Hall in Hlen.
    rewrite Hall, Hall'. destruct (qLimit q) as [n|]; simpl in *; [|done].
    rewrite length_take in Hlen.
    pose proof (Permutation_length Hperm') as Hlen'. rewrite length_app in Hlen'.
    simpl in Hlen'. by rewrite !take_ge by lia. }
  assert (Forall2 (λ e a, Load (props e) = Some a) (run q s ++ [e]) (l ++ [a])) as Hload'.
  { apply Forall2_app; [done|]. by repeat constructor. }
  symmetry in Hrun.
  destruct (Forall2_Permutation_l _ _ _ _ Hrun Hload') as (l' & Hl' & Hp).
  exists l'. split; [|done]. unfold GetAll. rewrite Hfault', Hfault.
  by rewrite (mapM_Some_2 Load (props <$> run q s') l') by by apply Forall2_fmap_l.
Qed.

Lemma User_Load_Save (u : User) : Load (Save u) = Some u.
Proof. by destruct u. Qed.

Lemma Punch_Load_Save (p : Punch) : Load (Save p) = Some p.
Proof. by destruct p. Qed.

Lemma inserted_punch_matches (p : Punch) (s : Store) :
  matches rootQuery (inserted "Punch" p s).
Proof.
  split; [done|]. split.
  - simpl. by apply prefix_app_r.
  - simpl. repeat constructor; by eexists.
Qed.

Lemma apiAdminUsersHandler_POST_store σ r enabled :
  http.Method r = "POST" → getFormBoolValue r "enabled" true = (enabled, None) →
  write_fault (store σ) = None →
  ∃ res σ1, apiAdminUsersHandler r σ = Some (res, σ1)
    ∧ entities (store σ1)
      = (entities (store σ)
           ++ [inserted "User" {| Email := http.FormValue r "email";
                                  Name := http.FormValue r "name";
                                  Enabled := enabled |} (store σ)])%list
    ∧ read_fault (store σ1) = read_fault (store σ).
Proof.
  intros Hm Hg Hf. unfold apiAdminUsersHandler. rewrite Hm, Hg. simpl. run_handler.
  rewrite (Put_incomplete _ _ _ Hf). simpl. do 2 eexists. repeat split.
Qed.

Lemma punchHandler_POST_store σ r u punchType :
  http.Method r = "POST" → currentUser σ = Some u → write_fault (store σ) = None →
  ∃ res σ1, punchHandler punchType r σ = Some (res, σ1)
    ∧ entities (store σ1)
      = (entities (store σ)
           ++ [inserted "Punch" {| Puncher := user.Email u; Type_ := punchType;
                                   Time := clock σ |} (store σ)])%list
    ∧ read_fault (store σ1) = read_fault (store σ).
Proof.
  intros Hm Hu Hf. unfold punchHandler, createPunch. rewrite Hm. simpl. run_handler.
  rewrite Hu. simpl. rewrite (Put_incomplete _ _ _ Hf). simpl. do 2 eexists. repeat split.
Qed.

(** X5. A user created by a POST to /api/admin/users is listed from then
    on: when the list query succeeded before the POST, it succeeds on the
    store the POST leaves and returns the users it returned before
    together with the new one (email and name from the form, enabled as
    parsed), again in ascending order of name. Users that were listed are
    neither dropped nor changed, and an equal user is listed twice. *)
Theorem admin_post_then_list σ r u users enabled :
  http.Path r = "/api/admin/users" → http.Method r = "POST" →
  currentUser σ = Some u →
  getFormBoolValue r "enabled" true = (enabled, None) →
  write_fault (store σ) = None →
  GetAll usersQuery (store σ) = Ok users →
  ∃ σ1 users',
    ServeMux r σ = Some ((), σ1)
    ∧ GetAll usersQuery (store σ1) = Ok users'
    ∧ users' ≡ₚ (users ++ [{| Email := http.FormValue r "email";
                              Name := http.FormValue r "name";
                              Enabled := enabled |}])%list
    ∧ Sorted name_le (Name <$> users').
Proof.
  intros Hpath Hm Hu Hg Hf Hget. rewrite (ServeMux_api r Hpath).
  destruct (apiAdminUsersHandler_POST_store σ r enabled Hm Hg Hf)
    as (res & σ1 & Hrun & Hents & Hfault).
  destruct (json_gate_store σ r _ u res σ1 Hu Hrun) as (σ' & Hserve & Hs).
  rewrite <- Hs in Hents, Hfault.
  destruct (GetAll_after_insert usersQuery _ _ _ _ users Hget Hents Hfault
              (inserted_user_matches _ _) (User_Load_Save _) I) as (users' & Hget' & Hperm).
  exists σ', users'. split; [done|]. split; [done|]. split; [done|].
  by destruct (GetAll_usersQuery _ _ Hget') as [Hsorted _].
Qed.

(** X6. A punch created by a POST to /my/arrivals or /my/leaves is on the
    root page from then on, as long as the page was not full: when the
    query of the page succeeded with fewer than ten punches before the
    POST, it succeeds on the store the POST leaves and returns those
    punches together with the new one (email of the user, the type of the
    path, the time of the clock), in ascending order of time. *)
Theorem punch_post_then_page σ r u punchType punches :
  punch_route (http.Path r) punchType → http.Method r = "POST" →
  currentUser σ = Some u →
  write_fault (store σ) = None →
  GetAll rootQuery (store σ) = Ok punches → (length punches < 10)%nat →
  ∃ σ1 punches',
    ServeMux r σ = Some ((), σ1)
    ∧ GetAll rootQuery (store σ1) = Ok punches'
    ∧ punches' ≡ₚ (punches ++ [{| Puncher := user.Email u; Type_ := punchType;
                                  Time := clock σ |}])%list
    ∧ Sorted Z.le (Time <$> punches').
Proof.
  intros Hroute Hm Hu Hf Hget Hlen. rewrite (ServeMux_punch r _ Hroute).
  destruct (punchHandler_POST_store σ r u punchType Hm Hu Hf)
    as (res & σ1 & Hrun & Hents & Hfault).
  destruct (html_gate_store σ r _ u res σ1 Hu Hrun) as (σ' & Hserve & Hs).
  rewrite <- Hs in Hents, Hfault.
  destruct (GetAll_after_insert rootQuery _ _ _ _ punches Hget Hents Hfault
              (inserted_punch_matches _ _) (Punch_Load_Save _) Hlen)
    as (punches' & Hget' & Hperm).
  exists σ', punches'. split; [done|]. split; [done|]. split; [done|].
  by destruct (GetAll_rootQuery _ _ Hget') as (_ & Hsorted & _).
Qed.

End PutThenQuery.

Lemma root_query_omits_punch_with_ten_older_witness :
  Examples.punch_entity 11 660
    ∉ datastore.run rootQuery (Examples.store_of Examples.eleven_punches).
Proof.
  apply (root_query_omits_punch_with_ten_older _ _ 660); [reflexivity|].
  vm_compute. lia.
Defined.

Lemma admin_post_then_list_witness :
  ∃ σ1 users',
    ServeMux (Examples.request "POST" "/api/admin/users"
                [("email", "bob@example.com"); ("name", "Bob")])
      (Examples.world (Some Examples.alice)
         (Examples.store_of [Examples.user_entity 1 "zoe"])) = Some ((), σ1)
    ∧ datastore.GetAll usersQuery (store σ1) = Ok users'
    ∧ users' ≡ₚ [{| Email := "zoe@example.com"; Name := "zoe"; Enabled := true |};
                 {| Email := "bob@example.com"; Name := "Bob"; Enabled := true |}].
Proof.
  destruct (admin_post_then_list
              (Examples.world (Some Examples.alice)
                 (Examples.store_of [Examples.user_entity 1 "zoe"]))
              (Examples.request "POST" "/api/admin/users"
                 [("email", "bob@example.com"); ("name", "Bob")])
              Examples.alice
              [{| Email := "zoe@example.com"; Name := "zoe"; Enabled := true |}] true)
    as (σ1 & users' & Hrun & Hget & Hperm & _); [reflexivity..|].
  by exists σ1, users'.
Defined.

Lemma punch_post_then_page_witness :
  ∃ σ1 punches',
    ServeMux (Examples.request "POST" "/my/leaves" [])
      (Examples.world (Some Examples.alice)
         (Examples.store_of [Examples.punch_entity 1 60])) = Some ((), σ1)
    ∧ datastore.GetAll rootQuery (store σ1) = Ok punches'
    ∧ punches' ≡ₚ [{| Puncher := "alice@example.com"; Type_ := "arrival"; Time := 60 |};
                   {| Puncher := "alice@example.com"; Type_ := "leave";
                      Time := 1709210096 |}].
Proof.
  destruct (punch_post_then_page
              (Examples.world (Some Examples.alice)
                 (Examples.store_of [Examples.punch_entity 1 60]))
              (Examples.request "POST" "/my/leaves" []) Examples.alice "leave"
              [{| Puncher := "alice@example.com"; Type_ := "arrival"; Time := 60 |}])
    as (σ1 & punches' & Hrun & Hget & Hperm & _);
    [by right|reflexivity|reflexivity|reflexivity|reflexivity|simpl; lia|].
  by exists σ1, punches'.
Defined.

(** ** Reading the boolean of a form *)

(** X7. [getFormBoolValue], for any parameter and default: an empty field
    gives the default; a field that is one of the six spellings of true,
    or of the six of false, gives that value; any other field, a spelling
    in other letter case included, gives false together with an error of
    status 400 whose message names the parameter. No other outcome
    occurs. *)
Theorem getFormBoolValue_outcomes (r : http.Request) (name : string) (defaultValue : bool) :
  let field := http.FormValue r name in
  match getFormBoolValue r name defaultValue with
  | (value, None) =>
      (field = "" ∧ value = defaultValue)
      ∨ (field ∈ true_spellings ∧ value = true)
      ∨ (field ∈ false_spellings ∧ value = false)
  | (value, Some e) =>
      field ≠ "" ∧ (field ∉ true_spellings) ∧ (field ∉ false_spellings)
      ∧ value = false
      ∧ Code e = http.StatusBadRequest
      ∧ Message e = "Failed to parse the " +:+ dq +:+ name +:+ dq
                      +:+ " parameter as a boolean value"
      ∧ Error e = Some (strconv.syntaxError "ParseBool" field)
  end.
Proof.
  unfold getFormBoolValue, strconv.ParseBool. simpl.
  fold true_spellings false_spellings.
  case_bool_decide as Hempty.
  - repeat case_bool_decide; simpl; auto 10.
  - left. split; [|done]. by destruct (decide (http.FormValue r name = "")).
Qed.

(** ** The admin API when the store fails *)

Section AdminFaults.

Variables (σ : World) (r : http.Request).

(** X8. A signed-in request to /api/admin/users while the store fails. A
    GET whose read fails, and a POST with a readable enabled field whose
    write fails, are answered with status 500 and the fixed message of the
    branch as plain text; the error of the store goes to the log and not
    to the client, and the store is unchanged. As the gate goes on after
    the error, the line null follows the message. *)
Theorem admin_store_failure u err :
  http.Path r = "/api/admin/users" → currentUser σ = Some u → w σ = http.fresh →
  (http.Method r = "GET" → datastore.read_fault (store σ) = Some err →
   ∃ σ', ServeMux r σ = Some ((), σ')
     ∧ store σ' = store σ
     ∧ http.status (w σ') = Some http.StatusInternalServerError
     ∧ http.sent (w σ') !! "Content-Type" = Some ["text/plain; charset=utf-8"]
     ∧ http.body (w σ')
       = "Failed to fetch users data from the datastore" +:+ nl +:+ json.Encode VNil
     ∧ log σ' = (log σ ++ [(LError, err)])%list)
  ∧ (http.Method r = "POST" →
     ∀ enabled, getFormBoolValue r "enabled" true = (enabled, None) →
     datastore.write_fault (store σ) = Some err →
     ∃ σ', ServeMux r σ = Some ((), σ')
       ∧ store σ' = store σ
       ∧ http.status (w σ') = Some http.StatusInternalServerError
       ∧ http.sent (w σ') !! "Content-Type" = Some ["text/plain; charset=utf-8"]
       ∧ http.body (w σ')
         = "Failed to put a user data to the datastore" +:+ nl +:+ json.Encode VNil
       ∧ log σ'
         = (log σ ++ [(LDebug, "formvalues. email=" +:+ http.FormValue r "email"
                                 +:+ ", name=" +:+ http.FormValue r "name");
                      (LError, err)])%list).
Proof.
  intros Hpath Hu Hw. rewrite (ServeMux_api r Hpath). split.
  - intros Hm Hf. unfold apiHandler_ServeHTTP. run_gate. rewrite Hu.
    rewrite (apiAdminUsersHandler_GET σ r Hm). unfold datastore.GetAll. rewrite Hf.
    run_gate. rewrite Hw. eexists. split; [reflexivity|]. by repeat split.
  - intros Hm enabled Hg Hf. unfold apiHandler_ServeHTTP, apiAdminUsersHandler.
    run_handler. rewrite Hu, Hm, Hg. simpl. run_handler.
    rewrite (Put_fault _ _ _ _ Hf). run_gate. rewrite Hw.
    eexists. split; [reflexivity|]. simpl. rewrite <- app_assoc. by repeat split.
Qed.

End AdminFaults.

Lemma admin_store_failure_witness :
  (∃ σ', ServeMux (Examples.request "GET" "/api/admin/users" [])
           (Examples.world (Some Examples.alice) (Examples.failing_reads "timeout"))
         = Some ((), σ')
     ∧ http.status (w σ') = Some 500 ∧ log σ' = [(LError, "timeout")])
  ∧ (∃ σ', ServeMux (Examples.request "POST" "/api/admin/users" [("name", "Bob")])
             (Examples.world (Some Examples.alice) (Examples.failing_writes "timeout"))
           = Some ((), σ')
       ∧ http.status (w σ') = Some 500 ∧ store σ' = Examples.failing_writes "timeout").
Proof.
  split.
  - destruct (admin_store_failure
                (Examples.world (Some Examples.alice) (Examples.failing_reads "timeout"))
                (Examples.request "GET" "/api/admin/users" []) Examples.alice "timeout")
      as [H _]; [reflexivity..|].
    destruct H as (σ' & Hrun & _ & Hst & _ & _ & Hlog); [reflexivity..|]. by exists σ'.
  - destruct (admin_store_failure
                (Examples.world (Some Examples.alice) (Examples.failing_writes "timeout"))
                (Examples.request "POST" "/api/admin/users" [("name", "Bob")])
                Examples.alice "timeout")
      as [_ H]; [reflexivity..|].
    destruct (H eq_refl true) as (σ' & Hrun & Hs & Hst & _); [reflexivity..|]. by exists σ'.
Defined.

Lemma posts_do_not_cross_witness :
  ∃ σ', ServeMux (Examples.request "POST" "/api/admin/users" [("name", "Bob")])
          (Examples.world (Some Examples.alice)
             (Examples.store_of [Examples.punch_entity 1 60])) = Some ((), σ')
    ∧ datastore.GetAll rootQuery (store σ')
      = Ok [{| Puncher := "alice@example.com"; Type_ := "arrival"; Time := 60 |}].
Proof.
  eexists. split; [vm_compute; reflexivity|].
  edestruct (posts_do_not_cross
               (Examples.world (Some Examples.alice)
                  (Examples.store_of [Examples.punch_entity 1 60]))
               (Examples.request "POST" "/api/admin/users" [("name", "Bob")]))
    as [H _]; [vm_compute; reflexivity|].
  rewrite (H eq_refl). reflexivity.
Defined.


(** ** Errors are logged *)



(** ** An error after the response has begun *)


